(** * ternarybob/ravendb: the query and CRUD helpers of package [services]

    A shallow embedding of [DatabaseService.Update] and of the free
    generic query functions (both under [services/crud_operations.go]), of
    the delete and query methods of [services/collection_service.go], and
    of the request and response shapes of [interfaces/ravendb_service.go].

    The vendor client (github.com/ravendb/ravendb-go-client) is not part of
    the repository.  Its sessions are modelled by a small unit-of-work
    machine over a finite map of documents; what the client may answer
    (the error of every call, the rows a raw query yields) is a parameter,
    the record [DocumentStore].  Go objects that are shared by reference
    (the [*QueryOptions] a caller passes, its [Parameters] map) live in
    two heaps, so that what a call does to them is visible to the caller. *)

From stdpp Require Import gmap strings list fin_maps pretty.

Local Open Scope string_scope.
Local Open Scope list_scope.
Local Open Scope Z_scope.

(** ** Values and documents *)

(** What an [interface{}] holds once it went through JSON. *)
Inductive value : Type :=
  | VNull
  | VBool (b : bool)
  | VInt (n : Z)
  | VStr (s : string).

(** [map[string]interface{}]: an untyped field map. *)
Abbreviation document := (gmap string value).

(** Addresses of Go objects that are shared by reference. *)
Abbreviation loc := positive.

(** A Go type parameter [T any] comes with its zero value ([var x T]). *)
Class GoType (T : Type) := zero_value : T.

(** ** package interfaces *)

Module QueryOptions.
Record t : Type := Build {
  Skip : Z;
  Take : Z;
  OrderBy : string;
  OrderDesc : bool;
  WhereClause : string;
  Parameters : option loc;   (* a Go map is a reference; [None] is nil *)
  IncludeTotal : bool
}.

(** [&interfaces.QueryOptions{}] *)
Definition zero : t :=
  Build 0 0 EmptyString false EmptyString None false.

Definition with_Take (n : Z) (o : t) : t :=
  Build (Skip o) n (OrderBy o) (OrderDesc o) (WhereClause o)
        (Parameters o) (IncludeTotal o).
Definition with_WhereClause (s : string) (o : t) : t :=
  Build (Skip o) (Take o) (OrderBy o) (OrderDesc o) s
        (Parameters o) (IncludeTotal o).
Definition with_Parameters (m : option loc) (o : t) : t :=
  Build (Skip o) (Take o) (OrderBy o) (OrderDesc o) (WhereClause o)
        m (IncludeTotal o).
End QueryOptions.

Module GenericQueryResult.
Record t (T : Type) : Type := Build {
  Results : list T;
  TotalCount : Z;
  Skip : Z;
  Take : Z;
  HasMore : bool
}.
Arguments Build {T}.
Arguments Results {T}.
Arguments TotalCount {T}.
Arguments Skip {T}.
Arguments Take {T}.
Arguments HasMore {T}.
End GenericQueryResult.

(** ** The vendor client, as far as this layer consumes it *)

(** Every call of the client that returns an [error] may fail; [None] is
    a nil error.  [GetResults] is the engine: it is handed the query text,
    the named parameters and the committed documents, and yields rows of
    [*T] (a row may be a nil pointer). *)
Record DocumentStore (T : Type) : Type := {
  OpenSession_err : string → option string;
  Load_err : string → option string;
  StoreWithID_err : string → option string;
  SaveChanges_err : option string;
  GetResults : string → gmap string value → gmap string document →
               string + list (option T)
}.
Arguments OpenSession_err {T}.
Arguments Load_err {T}.
Arguments StoreWithID_err {T}.
Arguments SaveChanges_err {T}.
Arguments GetResults {T}.

(** What a session has been told and has not committed yet. *)
Inductive change : Type :=
  | Put (id : string) (d : document)
  | Del (id : string).

(** ** The world the operations run in *)

Record World : Type := mkWorld {
  server : gmap string document;           (* committed documents *)
  pending : list change;                   (* unit of work of the open session, newest first *)
  options_heap : gmap loc QueryOptions.t;  (* the [*QueryOptions] objects *)
  maps_heap : gmap loc (gmap string value);(* the [Parameters] maps *)
  wire : list (string * gmap string value) (* raw queries executed, oldest first *)
}.

Definition set_server (f : gmap string document → gmap string document) (w : World) :=
  mkWorld (f (server w)) (pending w) (options_heap w) (maps_heap w) (wire w).
Definition set_pending (f : list change → list change) (w : World) :=
  mkWorld (server w) (f (pending w)) (options_heap w) (maps_heap w) (wire w).
Definition set_options_heap (f : gmap loc QueryOptions.t → gmap loc QueryOptions.t) (w : World) :=
  mkWorld (server w) (pending w) (f (options_heap w)) (maps_heap w) (wire w).
Definition set_maps_heap (f : gmap loc (gmap string value) → gmap loc (gmap string value)) (w : World) :=
  mkWorld (server w) (pending w) (options_heap w) (f (maps_heap w)) (wire w).
Definition set_wire (f : list (string * gmap string value) → list (string * gmap string value)) (w : World) :=
  mkWorld (server w) (pending w) (options_heap w) (maps_heap w) (f (wire w)).

(** ** A state and error monad *)

(** [Err] is a returned Go [error] (its text); [Panic] is a run-time panic,
    which here can only come from an address that is not allocated. *)
Inductive outcome (A : Type) : Type :=
  | Ok (a : A)
  | Err (e : string)
  | Panic.
Arguments Ok {A}.
Arguments Err {A}.
Arguments Panic {A}.

Definition M (A : Type) : Type := World → outcome A * World.

Definition ret {A} (a : A) : M A := λ w, (Ok a, w).
Definition bind {A B} (m : M A) (k : A → M B) : M B :=
  λ w, match m w with
       | (Ok a, w') => k a w'
       | (Err e, w') => (Err e, w')
       | (Panic, w') => (Panic, w')
       end.
(** [return fmt.Errorf(...)] *)
Definition throw {A} (e : string) : M A := λ w, (Err e, w).
Definition panic {A} : M A := λ w, (Panic, w).
Definition gets {A} (f : World → A) : M A := λ w, (Ok (f w), w).
Definition modify (f : World → World) : M unit := λ w, (Ok tt, f w).

Declare Scope go_scope.
Delimit Scope go_scope with go.
Notation "x <- m ;; k" := (bind m (λ x, k))
  (at level 100, m at next level, right associativity) : go_scope.
Notation "m ;;; k" := (bind m (λ _, k))
  (at level 100, right associativity) : go_scope.
Local Open Scope go_scope.

(** [fmt.Errorf(prefix + "%w", err)] when [err != nil]. *)
Definition check (prefix : string) (err : option string) : M unit :=
  match err with
  | Some e => throw (prefix +:+ e)
  | None => ret tt
  end.

(** [fmt.Sprintf("%d", n)] *)
Definition fmt_d (n : Z) : string := pretty n.

(** ** Sessions of the vendor client *)

Section client.
Context {T : Type}.
Variable store : DocumentStore T.

(** [session, err := store.OpenSession(database)]: a session starts with
    an empty unit of work. *)
Definition OpenSession (database prefix : string) : M unit :=
  check prefix (OpenSession_err store database) ;;;
  modify (set_pending (λ _, [])).

(** [defer session.Close()]: runs on every way out of [body], and drops
    what was not committed. *)
Definition defer_Close {A} (body : M A) : M A :=
  λ w, let '(r, w') := body w in (r, set_pending (λ _, []) w').

(** What the open session believes about [id]: its own changes first,
    the committed documents otherwise. *)
Fixpoint session_view (cs : list change) (srv : gmap string document)
    (id : string) : option document :=
  match cs with
  | [] => srv !! id
  | Put i d :: rest => if decide (i = id) then Some d else session_view rest srv id
  | Del i :: rest => if decide (i = id) then None else session_view rest srv id
  end.

(** [err = session.Load(&document, id)]; the result is nil ([None]) when
    there is no such document. *)
Definition session_Load (prefix id : string) : M (option document) :=
  check prefix (Load_err store id) ;;;
  gets (λ w, session_view (pending w) (server w) id).

(** [err = session.StoreWithID(document, id)] *)
Definition session_StoreWithID (prefix : string) (d : document) (id : string) : M unit :=
  check prefix (StoreWithID_err store id) ;;;
  modify (set_pending (cons (Put id d))).

(** [session.Delete(...)]: the result is dropped by every caller. *)
Definition session_Delete (id : string) : M unit :=
  modify (set_pending (cons (Del id))).

Definition apply_change (c : change) (srv : gmap string document) : gmap string document :=
  match c with
  | Put i d => <[i:=d]> srv
  | Del i => delete i srv
  end.

(** [return session.SaveChanges()]: the error is handed on as it is;
    on success the unit of work is committed, oldest change first. *)
Definition session_SaveChanges : M unit :=
  match SaveChanges_err store with
  | Some e => throw e
  | None => modify (λ w, set_pending (λ _, [])
                           (set_server (λ srv, foldr apply_change srv (pending w)) w))
  end.

(** [err = query.GetResults(&results)] on
    [session.Advanced().RawQuery(queryStr)] with the parameters added so
    far; the query goes over the wire and the engine answers. *)
Definition RawQuery_GetResults (prefix queryStr : string) (params : gmap string value)
    : M (list (option T)) :=
  modify (set_wire (λ l, (l ++ [(queryStr, params)])%list)) ;;;
  λ w, match GetResults store queryStr params (server w) with
       | inl e => (Err (prefix +:+ e), w)
       | inr rows => (Ok rows, w)
       end.
End client.

(** [session.Store(document)], without an ID: the client picks the
    identity of the document.  Which one it picks, from what it knows of
    the server and of the session, and whether the call fails, is the
    client's business. *)
Record Identities : Type := {
  Store_err : option string;
  GenerateID : gmap string document → list change → document → string
}.

(** [err = session.Store(document)] *)
Definition session_Store (identities : Identities) (prefix : string) (d : document)
    : M unit :=
  check prefix (Store_err identities) ;;;
  modify (λ w, set_pending
                 (cons (Put (GenerateID identities (server w) (pending w) d) d)) w).

(** How the client writes a [T] as a document and reads it back (its JSON
    mapping). *)
Class Codec (T : Type) : Type := {
  to_document : T → document;
  of_document : document → T
}.

(** What [Maintenance().ForDatabase(database).Send(statisticsOperation)]
    hands back, as far as it is looked at: whether it is nil. *)
Record Statistics : Type := {
  Send_is_nil : bool
}.

(** ** Go objects behind pointers *)

(** [&interfaces.QueryOptions{...}] *)
Definition new_options (o : QueryOptions.t) : M loc :=
  λ w, let p := fresh (dom (options_heap w)) in
       (Ok p, set_options_heap <[p:=o]> w).

(** [*options] *)
Definition read_options (p : loc) : M QueryOptions.t :=
  λ w, match options_heap w !! p with
       | Some o => (Ok o, w)
       | None => (Panic, w)
       end.

(** [options.f = v], as an update of the object. *)
Definition write_options (p : loc) (f : QueryOptions.t → QueryOptions.t) : M unit :=
  o <- read_options p ;;
  modify (set_options_heap <[p:=f o]>).

(** [make(map[string]interface{})] *)
Definition make_map : M loc :=
  λ w, let m := fresh (dom (maps_heap w)) in
       (Ok m, set_maps_heap <[m:=∅]> w).

(** [m[key] = v] *)
Definition map_assign (m : loc) (key : string) (v : value) : M unit :=
  λ w, match maps_heap w !! m with
       | Some g => (Ok tt, set_maps_heap <[m:=<[key:=v]> g]> w)
       | None => (Panic, w)
       end.

(** The entries a [for key, value := range m] visits. *)
Definition map_entries (m : loc) : M (gmap string value) :=
  λ w, match maps_heap w !! m with
       | Some g => (Ok g, w)
       | None => (Panic, w)
       end.

(** ** package services *)

(** [interfaces.IRavenDBService], as far as the operations below call it:
    [GetStore()] (asserted to be the vendor's [*DocumentStore]) and
    [GetDatabase()]. *)
Record IRavenDBService (T : Type) : Type := {
  GetStore : DocumentStore T;
  GetDatabase : string
}.
Arguments GetStore {T}.
Arguments GetDatabase {T}.

(** [if options == nil { options = &interfaces.QueryOptions{} }] *)
Definition or_new (options : option loc) : M loc :=
  match options with
  | None => new_options QueryOptions.zero
  | Some p => ret p
  end.

(** [if options.Parameters == nil { options.Parameters = make(map[string]interface{}) }] *)
Definition ensure_Parameters (options : loc) : M unit :=
  o <- read_options options ;;
  match QueryOptions.Parameters o with
  | None => m <- make_map ;;
            write_options options (QueryOptions.with_Parameters (Some m))
  | Some _ => ret tt
  end.

(** [options.Parameters[key] = v]; writing into a nil map panics. *)
Definition Parameters_assign (options : loc) (key : string) (v : value) : M unit :=
  o <- read_options options ;;
  match QueryOptions.Parameters o with
  | Some m => map_assign m key v
  | None => panic
  end.

(** The loop of [Search]: [i] counts the fields already seen. *)
Fixpoint Search_loop (options : loc) (searchTerm : string) (i : nat)
    (searchFields whereConditions : list string) : M (list string) :=
  match searchFields with
  | [] => ret whereConditions
  | field :: rest =>
      let paramName := "searchTerm" +:+ fmt_d (Z.of_nat i) in
      let whereConditions :=
        (whereConditions ++ ["search(" +:+ field +:+ ", $" +:+ paramName +:+ ")"])%list in
      Parameters_assign options paramName (VStr searchTerm) ;;;
      Search_loop options searchTerm (S i) rest whereConditions
  end.

Section generic_queries.
Context {T : Type} `{GoType T}.

(** [finalResults := make([]T, len(results))] and the loop that copies
    every non-nil row into its slot. *)
Fixpoint deref_rows (i : nat) (results : list (option T)) (finalResults : list T) : list T :=
  match results with
  | [] => finalResults
  | Some v :: rest => deref_rows (S i) rest (<[i:=v]> finalResults)
  | None :: rest => deref_rows (S i) rest finalResults
  end.

(** Query is a generic method that queries documents of a specific type T. *)
Definition Query (service : IRavenDBService T) (collection : string)
    (options : option loc) : M (GenericQueryResult.t T) :=
  let store := GetStore service in
  OpenSession store (GetDatabase service) "failed to open session: " ;;;
  defer_Close (
    (* Set default values *)
    options <- or_new options ;;
    o <- read_options options ;;
    (if bool_decide (QueryOptions.Take o ≤ 0)
     then write_options options (QueryOptions.with_Take 25) else ret tt) ;;;
    o <- read_options options ;;
    (if bool_decide (QueryOptions.Take o > 1024)
     then write_options options (QueryOptions.with_Take 1024) else ret tt) ;;;
    o <- read_options options ;;
    (* Build RQL query dynamically *)
    let rqlQuery := "from @all_docs where @metadata.'@collection' = '" +:+ collection +:+ "'" in
    let rqlQuery :=
      if bool_decide (QueryOptions.WhereClause o ≠ EmptyString)
      then rqlQuery +:+ " AND (" +:+ QueryOptions.WhereClause o +:+ ")"
      else rqlQuery in
    let rqlQuery :=
      if bool_decide (QueryOptions.OrderBy o ≠ EmptyString)
      then if QueryOptions.OrderDesc o
           then rqlQuery +:+ " ORDER BY " +:+ QueryOptions.OrderBy o +:+ " DESC"
           else rqlQuery +:+ " ORDER BY " +:+ QueryOptions.OrderBy o
      else rqlQuery in
    let rqlQuery :=
      if bool_decide (QueryOptions.Skip o > 0) || bool_decide (QueryOptions.Take o > 0)
      then let skip := QueryOptions.Skip o in
           let take := QueryOptions.Take o in
           let take := if bool_decide (take ≤ 0) then 25 else take in
           rqlQuery +:+ " LIMIT " +:+ fmt_d skip +:+ ", " +:+ fmt_d take
      else rqlQuery in
    (* Execute the raw query, with the parameters if provided *)
    let queryStr := rqlQuery in
    params <- match QueryOptions.Parameters o with
              | Some m => map_entries m
              | None => ret ∅
              end ;;
    results <- RawQuery_GetResults store "failed to execute query: " queryStr params ;;
    (* Convert pointers to values *)
    let finalResults := deref_rows 0 results (replicate (length results) zero_value) in
    let totalCount := Z.of_nat (length finalResults) in
    let hasMore := bool_decide (QueryOptions.Take o > 0)
                   && bool_decide (totalCount = QueryOptions.Take o) in
    ret (GenericQueryResult.Build finalResults totalCount
           (QueryOptions.Skip o) (QueryOptions.Take o) hasMore)).

(** QueryAll is a generic method that queries all documents of a specific type. *)
Definition QueryAll (service : IRavenDBService T) (collection : string)
    : M (GenericQueryResult.t T) :=
  options <- new_options
               (QueryOptions.Build 0 1024 EmptyString false EmptyString None false) ;;
  Query service collection (Some options).

(** QueryByField queries documents by a specific field value. *)
Definition QueryByField (service : IRavenDBService T) (collection fieldName : string)
    (fieldValue : value) (options : option loc) : M (GenericQueryResult.t T) :=
  options <- or_new options ;;
  write_options options (QueryOptions.with_WhereClause (fieldName +:+ " = $value")) ;;;
  ensure_Parameters options ;;;
  Parameters_assign options "value" fieldValue ;;;
  Query service collection (Some options).

(** QueryByRange queries documents within a range of values. *)
Definition QueryByRange (service : IRavenDBService T) (collection fieldName : string)
    (minValue maxValue : value) (options : option loc) : M (GenericQueryResult.t T) :=
  options <- or_new options ;;
  write_options options
    (QueryOptions.with_WhereClause
       (fieldName +:+ " >= $minValue AND " +:+ fieldName +:+ " <= $maxValue")) ;;;
  ensure_Parameters options ;;;
  Parameters_assign options "minValue" minValue ;;;
  Parameters_assign options "maxValue" maxValue ;;;
  Query service collection (Some options).

(** Search performs a full-text search across documents. *)
Definition Search (service : IRavenDBService T) (collection searchTerm : string)
    (searchFields : list string) (options : option loc) : M (GenericQueryResult.t T) :=
  options <- or_new options ;;
  ensure_Parameters options ;;;
  whereConditions <- Search_loop options searchTerm 0 searchFields [] ;;
  (if bool_decide (Z.of_nat (length whereConditions) > 0)
   then write_options options
          (QueryOptions.with_WhereClause
             ("(" +:+ String.concat " OR " whereConditions +:+ ")"))
   else ret tt) ;;;
  Query service collection (Some options).
End generic_queries.

Module DatabaseService.
Section methods.
Context {T : Type}.

(** Update updates an existing document. *)
Definition Update (ds : IRavenDBService T) (id : string) (updates : gmap string value)
    : M unit :=
  let store := GetStore ds in
  OpenSession store (GetDatabase ds) "failed to open session: " ;;;
  defer_Close (
    (* Load the document first *)
    document <- session_Load store "failed to load document for update: " id ;;
    match document with
    | None => throw ("document with ID " +:+ id +:+ " not found")
    | Some document =>
        (* Apply updates *)
        let document :=
          map_fold (λ key value document, <[key:=value]> document) document updates in
        (* Store the updated document *)
        session_StoreWithID store "failed to store updated document: " document id ;;;
        session_SaveChanges store
    end).
End methods.

Section more_methods.
Context {T : Type}.
Variable identities : Identities.

(** Store stores a document with the specified ID. *)
Definition Store (ds : IRavenDBService T) (id : string) (doc : document) : M unit :=
  let store := GetStore ds in
  OpenSession store (GetDatabase ds) "failed to open session: " ;;;
  defer_Close (
    (if bool_decide (id ≠ EmptyString)
     then session_StoreWithID store "failed to store document: " doc id
     else session_Store identities "failed to store document: " doc) ;;;
    session_SaveChanges store).

(** The loop of [StoreMultiple], over the entries in the order in which
    the [range] statement visits them. *)
Fixpoint StoreMultiple_loop (store : DocumentStore T)
    (entries : list (string * document)) : M unit :=
  match entries with
  | [] => ret tt
  | (id, doc) :: rest =>
      (if bool_decide (id ≠ EmptyString)
       then session_StoreWithID store
              ("failed to store document with ID " +:+ id +:+ ": ") doc id
       else session_Store identities
              ("failed to store document with ID " +:+ id +:+ ": ") doc) ;;;
      StoreMultiple_loop store rest
  end.

(** [StoreMultiple] for a given order of visit. *)
Definition StoreMultiple_in_order (ds : IRavenDBService T)
    (entries : list (string * document)) : M unit :=
  let store := GetStore ds in
  OpenSession store (GetDatabase ds) "failed to open session: " ;;;
  defer_Close (
    StoreMultiple_loop store entries ;;;
    session_SaveChanges store).

(** StoreMultiple stores multiple documents in a single transaction.  Go
    leaves the order of a [range] over a map open; here it is the order of
    [map_to_list]. *)
Definition StoreMultiple (ds : IRavenDBService T) (documents : gmap string document)
    : M unit :=
  StoreMultiple_in_order ds (map_to_list documents).

(** LoadByID loads a document by ID into the result interface: the value
    is what [result] holds afterwards, [None] when nothing was loaded. *)
Definition LoadByID (ds : IRavenDBService T) (id : string) : M (option document) :=
  let store := GetStore ds in
  OpenSession store (GetDatabase ds) "failed to open session: " ;;;
  defer_Close (session_Load store "failed to load document: " id).

(** The loop of [LoadMultipleByIDs]. *)
Fixpoint LoadMultipleByIDs_loop (store : DocumentStore T) (ids : list string)
    (resultsSlice : list document) : M (list document) :=
  match ids with
  | [] => ret resultsSlice
  | id :: rest =>
      doc <- session_Load store ("failed to load document " +:+ id +:+ ": ") id ;;
      LoadMultipleByIDs_loop store rest
        (match doc with
         | Some d => resultsSlice ++ [d]
         | None => resultsSlice
         end)
  end.

(** LoadMultipleByIDs loads multiple documents by their IDs; [results] is
    what the caller's slice holds before the call, the value what it
    holds afterwards. *)
Definition LoadMultipleByIDs (ds : IRavenDBService T) (ids : list string)
    (results : list document) : M (list document) :=
  let store := GetStore ds in
  OpenSession store (GetDatabase ds) "failed to open session: " ;;;
  defer_Close (LoadMultipleByIDs_loop store ids results).

(** Delete removes a document by ID.  [session.Delete(id)] is handed the
    ID itself, and marks the document of that ID. *)
Definition Delete (ds : IRavenDBService T) (id : string) : M unit :=
  let store := GetStore ds in
  OpenSession store (GetDatabase ds) "failed to open session: " ;;;
  defer_Close (
    session_Delete id ;;;
    session_SaveChanges store).

(** The loop of [DeleteMultiple]. *)
Fixpoint DeleteMultiple_loop (ids : list string) : M unit :=
  match ids with
  | [] => ret tt
  | id :: rest => session_Delete id ;;; DeleteMultiple_loop rest
  end.

(** DeleteMultiple removes multiple documents by their IDs. *)
Definition DeleteMultiple (ds : IRavenDBService T) (ids : list string) : M unit :=
  let store := GetStore ds in
  OpenSession store (GetDatabase ds) "failed to open session: " ;;;
  defer_Close (
    DeleteMultiple_loop ids ;;;
    session_SaveChanges store).

(** Exists checks if a document with the given ID exists. *)
Definition Exists (ds : IRavenDBService T) (id : string) : M bool :=
  let store := GetStore ds in
  OpenSession store (GetDatabase ds) "failed to open session: " ;;;
  defer_Close (
    document <- session_Load store "failed to check document existence: " id ;;
    ret (match document with Some _ => true | None => false end)).

(** CountDocuments returns the total number of documents in a collection. *)
Definition CountDocuments (ds : IRavenDBService T) (collection : string) : M Z :=
  let store := GetStore ds in
  OpenSession store (GetDatabase ds) "failed to open session: " ;;;
  defer_Close (ret 0).

(** GetDatabaseStatus returns information about the RavenDB database
    state: the status map together with the error (nil is [None]). *)
Definition GetDatabaseStatus (statistics : Statistics) (ds : IRavenDBService T)
    (w : World) : (gmap string value * option string) * World :=
  let status : gmap string value := ∅ in
  match OpenSession_err (GetStore ds) (GetDatabase ds) with
  | Some err =>
      let status := <["database_name":=VStr (GetDatabase ds)]> status in
      let status := <["status":=VStr "disconnected"]> status in
      let status := <["error":=VStr err]> status in
      ((status, Some err), w)
  | None =>
      if Send_is_nil statistics
      then
        let status := <["database_name":=VStr (GetDatabase ds)]> status in
        let status := <["status":=VStr "connected"]> status in
        let status := <["session_active":=VBool true]> status in
        let status := <["statistics_error":=VStr "failed to get statistics"]> status in
        ((status, None), set_pending (λ _, []) w)
      else
        let status := <["database_name":=VStr (GetDatabase ds)]> status in
        let status := <["status":=VStr "connected"]> status in
        let status := <["session_active":=VBool true]> status in
        let status := <["document_count":=VInt 0]> status in
        let status := <["index_count":=VInt 0]> status in
        ((status, None), set_pending (λ _, []) w)
  end.
End more_methods.
End DatabaseService.

Module CollectionService.
Section methods.
Context {T : Type} `{GoType T}.

(** CollectionService provides generic type-safe operations for a
    specific document type. *)
Record t : Type := Build {
  database : IRavenDBService T;
  collection : string
}.

(** Delete removes a document by ID.  The typed load yields a [*T];
    only whether it is nil matters here. *)
Definition Delete (cs : t) (id : string) : M unit :=
  let store := GetStore (database cs) in
  OpenSession store (GetDatabase (database cs)) "failed to open session: " ;;;
  defer_Close (
    (* Load document first, then delete *)
    document <- session_Load store "failed to load document for deletion: " id ;;
    match document with
    | None => throw ("document with ID " +:+ id +:+ " not found")
    | Some _ =>
        session_Delete id ;;;
        session_SaveChanges store
    end).

(** The loop of [DeleteMultiple]. *)
Fixpoint DeleteMultiple_loop (store : DocumentStore T) (ids : list string) : M unit :=
  match ids with
  | [] => ret tt
  | id :: rest =>
      document <- session_Load store
                    ("failed to load document " +:+ id +:+ " for deletion: ") id ;;
      (match document with
       | Some _ => session_Delete id
       | None => ret tt   (* Skip if document doesn't exist instead of failing *)
       end) ;;;
      DeleteMultiple_loop store rest
  end.

(** DeleteMultiple removes multiple documents by their IDs. *)
Definition DeleteMultiple (cs : t) (ids : list string) : M unit :=
  let store := GetStore (database cs) in
  OpenSession store (GetDatabase (database cs)) "failed to open session: " ;;;
  defer_Close (
    DeleteMultiple_loop store ids ;;;
    session_SaveChanges store).

(** Query executes a generic query with options. *)
Definition Query (cs : t) (options : option loc) : M (GenericQueryResult.t T) :=
  let store := GetStore (database cs) in
  OpenSession store (GetDatabase (database cs)) "failed to open session: " ;;;
  defer_Close (
    (* Set default values *)
    options <- or_new options ;;
    o <- read_options options ;;
    (if bool_decide (QueryOptions.Take o ≤ 0)
     then write_options options (QueryOptions.with_Take 25) else ret tt) ;;;
    o <- read_options options ;;
    (if bool_decide (QueryOptions.Take o > 1024)
     then write_options options (QueryOptions.with_Take 1024) else ret tt) ;;;
    o <- read_options options ;;
    (* Build RQL query dynamically *)
    let rqlQuery :=
      "from @all_docs where @metadata.'@collection' = '" +:+ collection cs +:+ "'" in
    let rqlQuery :=
      if bool_decide (QueryOptions.WhereClause o ≠ EmptyString)
      then rqlQuery +:+ " AND (" +:+ QueryOptions.WhereClause o +:+ ")"
      else rqlQuery in
    let rqlQuery :=
      if bool_decide (QueryOptions.OrderBy o ≠ EmptyString)
      then if QueryOptions.OrderDesc o
           then rqlQuery +:+ " ORDER BY " +:+ QueryOptions.OrderBy o +:+ " DESC"
           else rqlQuery +:+ " ORDER BY " +:+ QueryOptions.OrderBy o
      else rqlQuery in
    let rqlQuery :=
      if bool_decide (QueryOptions.Skip o > 0) || bool_decide (QueryOptions.Take o > 0)
      then let skip := QueryOptions.Skip o in
           let take := QueryOptions.Take o in
           let take := if bool_decide (take ≤ 0) then 25 else take in
           rqlQuery +:+ " LIMIT " +:+ fmt_d skip +:+ ", " +:+ fmt_d take
      else rqlQuery in
    (* Execute the raw query, with the parameters if provided *)
    let queryStr := rqlQuery in
    params <- match QueryOptions.Parameters o with
              | Some m => map_entries m
              | None => ret ∅
              end ;;
    results <- RawQuery_GetResults store "failed to execute query: " queryStr params ;;
    (* Convert pointers to values *)
    let finalResults := deref_rows 0 results (replicate (length results) zero_value) in
    let totalCount := Z.of_nat (length finalResults) in
    let hasMore := bool_decide (QueryOptions.Take o > 0)
                   && bool_decide (totalCount = QueryOptions.Take o) in
    ret (GenericQueryResult.Build finalResults totalCount
           (QueryOptions.Skip o) (QueryOptions.Take o) hasMore)).

(** QueryAll queries all documents of type T. *)
Definition QueryAll (cs : t) : M (GenericQueryResult.t T) :=
  options <- new_options
               (QueryOptions.Build 0 1024 EmptyString false EmptyString None false) ;;
  Query cs (Some options).

(** QueryByField queries documents by a specific field value. *)
Definition QueryByField (cs : t) (fieldName : string) (fieldValue : value)
    (options : option loc) : M (GenericQueryResult.t T) :=
  options <- or_new options ;;
  write_options options (QueryOptions.with_WhereClause (fieldName +:+ " = $value")) ;;;
  ensure_Parameters options ;;;
  Parameters_assign options "value" fieldValue ;;;
  Query cs (Some options).

(** QueryByRange queries documents within a range of values. *)
Definition QueryByRange (cs : t) (fieldName : string) (minValue maxValue : value)
    (options : option loc) : M (GenericQueryResult.t T) :=
  options <- or_new options ;;
  write_options options
    (QueryOptions.with_WhereClause
       (fieldName +:+ " >= $minValue AND " +:+ fieldName +:+ " <= $maxValue")) ;;;
  ensure_Parameters options ;;;
  Parameters_assign options "minValue" minValue ;;;
  Parameters_assign options "maxValue" maxValue ;;;
  Query cs (Some options).

(** Search performs a full-text search across specified fields. *)
Definition Search (cs : t) (searchTerm : string) (searchFields : list string)
    (options : option loc) : M (GenericQueryResult.t T) :=
  options <- or_new options ;;
  ensure_Parameters options ;;;
  whereConditions <- Search_loop options searchTerm 0 searchFields [] ;;
  (if bool_decide (Z.of_nat (length whereConditions) > 0)
   then write_options options
          (QueryOptions.with_WhereClause
             ("(" +:+ String.concat " OR " whereConditions +:+ ")"))
   else ret tt) ;;;
  Query cs (Some options).

(** Count returns the total number of documents in this collection. *)
Definition Count (cs : t) : M Z :=
  λ w, match QueryAll cs w with
       | (Ok result, w') => (Ok (GenericQueryResult.TotalCount result), w')
       | (Err e, w') => (Err ("failed to count documents: " +:+ e), w')
       | (Panic, w') => (Panic, w')
       end.
End methods.

Section typed_methods.
Context {T : Type} `{Codec T}.
Variable identities : Identities.

(** Store stores a document with the specified ID. *)
Definition Store (cs : @t T) (id : string) (document : T) : M unit :=
  let store := GetStore (database cs) in
  OpenSession store (GetDatabase (database cs)) "failed to open session: " ;;;
  defer_Close (
    (if bool_decide (id ≠ EmptyString)
     then session_StoreWithID store "failed to store document: " (to_document document) id
     else session_Store identities "failed to store document: " (to_document document)) ;;;
    session_SaveChanges store).

(** The loop of [StoreMultiple], over the entries in the order of visit. *)
Fixpoint StoreMultiple_loop (store : DocumentStore T) (entries : list (string * T))
    : M unit :=
  match entries with
  | [] => ret tt
  | (id, document) :: rest =>
      let doc := document in
      (if bool_decide (id ≠ EmptyString)
       then session_StoreWithID store
              ("failed to store document with ID " +:+ id +:+ ": ") (to_document doc) id
       else session_Store identities
              ("failed to store document with ID " +:+ id +:+ ": ") (to_document doc)) ;;;
      StoreMultiple_loop store rest
  end.

(** [StoreMultiple] for a given order of visit. *)
Definition StoreMultiple_in_order (cs : @t T) (entries : list (string * T)) : M unit :=
  let store := GetStore (database cs) in
  OpenSession store (GetDatabase (database cs)) "failed to open session: " ;;;
  defer_Close (
    StoreMultiple_loop store entries ;;;
    session_SaveChanges store).

(** StoreMultiple stores multiple documents in a single transaction. *)
Definition StoreMultiple (cs : @t T) (documents : gmap string T) : M unit :=
  StoreMultiple_in_order cs (map_to_list documents).

(** LoadByID loads a document by ID; a nil result is [None]. *)
Definition LoadByID (cs : @t T) (id : string) : M (option T) :=
  let store := GetStore (database cs) in
  OpenSession store (GetDatabase (database cs)) "failed to open session: " ;;;
  defer_Close (
    result <- session_Load store "failed to load document: " id ;;
    match result with
    | None => ret None   (* If document doesn't exist, result will be nil *)
    | Some d => ret (Some (of_document d))
    end).

(** The loop of [LoadMultipleByIDs]. *)
Fixpoint LoadMultipleByIDs_loop (store : DocumentStore T) (ids : list string)
    (results : list T) : M (list T) :=
  match ids with
  | [] => ret results
  | id :: rest =>
      doc <- session_Load store ("failed to load document " +:+ id +:+ ": ") id ;;
      LoadMultipleByIDs_loop store rest
        (match doc with
         | Some d => results ++ [of_document d]
         | None => results
         end)
  end.

(** LoadMultipleByIDs loads multiple documents by their IDs. *)
Definition LoadMultipleByIDs (cs : @t T) (ids : list string) : M (list T) :=
  let store := GetStore (database cs) in
  OpenSession store (GetDatabase (database cs)) "failed to open session: " ;;;
  defer_Close (LoadMultipleByIDs_loop store ids []).

(** Update updates an existing document. *)
Definition Update (cs : @t T) (id : string) (document : T) : M unit :=
  let store := GetStore (database cs) in
  OpenSession store (GetDatabase (database cs)) "failed to open session: " ;;;
  defer_Close (
    session_StoreWithID store "failed to store updated document: "
      (to_document document) id ;;;
    session_SaveChanges store).

(** Exists checks if a document with the given ID exists. *)
Definition Exists (cs : @t T) (id : string) : M bool :=
  let store := GetStore (database cs) in
  OpenSession store (GetDatabase (database cs)) "failed to open session: " ;;;
  defer_Close (
    document <- session_Load store "failed to check document existence: " id ;;
    ret (match document with Some _ => true | None => false end)).
End typed_methods.
End CollectionService.
Arguments CollectionService.t : clear implicits.

(** ** A small client to run the operations on *)

Module Demo.
Definition users : gmap string document :=
  {[ "users/1" := {[ "name" := VStr "John"; "age" := VInt 30 ]};
     "users/2" := {[ "name" := VStr "Jane"; "age" := VInt 41 ]} ]}.

Global Instance string_GoType : GoType string := EmptyString.

(** An engine that answers every query with the ids of the committed
    documents, and a client that never fails. *)
Definition store : DocumentStore string :=
  {| OpenSession_err := λ _, None;
     Load_err := λ _, None;
     StoreWithID_err := λ _, None;
     SaveChanges_err := None;
     GetResults := λ _ _ srv, inr (Some <$> (map_to_list srv).*1) |}.

(** The same client with the server out of reach. *)
Definition offline : DocumentStore string :=
  {| OpenSession_err := λ _, Some "connection refused";
     Load_err := λ _, None;
     StoreWithID_err := λ _, None;
     SaveChanges_err := None;
     GetResults := λ _ _ srv, inr [] |}.

Definition service : IRavenDBService string :=
  {| GetStore := store; GetDatabase := "Demo" |}.
Definition service_offline : IRavenDBService string :=
  {| GetStore := offline; GetDatabase := "Demo" |}.

Definition users_collection : CollectionService.t string :=
  CollectionService.Build service "Users".

Definition world : World := mkWorld users [] ∅ ∅ [].

(** The same world with one [QueryOptions] object, at address 1. *)
Definition options_at (o : QueryOptions.t) : World :=
  mkWorld users [] {[ 1%positive := o ]} ∅ [].

(** [&interfaces.QueryOptions{Take: take}] *)
Definition take_only (take : Z) : QueryOptions.t :=
  QueryOptions.with_Take take QueryOptions.zero.

(** A client that numbers the documents it is handed without an ID. *)
Definition identities : Identities :=
  {| Store_err := None;
     GenerateID := λ srv cs _, "auto/" +:+ fmt_d (Z.of_nat (size srv + length cs)) |}.

(** A [string] is written as a document with the one field [id]. *)
Global Instance string_Codec : Codec string :=
  {| to_document := λ s, {[ "id" := VStr s ]};
     of_document := λ d, match d !! "id" with
                          | Some (VStr s) => s
                          | _ => EmptyString
                          end |}.

(** A client on which [StoreWithID] fails for the id [users/2]. *)
Definition picky : DocumentStore string :=
  {| OpenSession_err := λ _, None;
     Load_err := λ id, if bool_decide (id = "users/2") then Some "timeout" else None;
     StoreWithID_err :=
       λ id, if bool_decide (id = "users/2") then Some "conflict" else None;
     SaveChanges_err := None;
     GetResults := λ _ _ srv, inl "engine down" |}.

Definition service_picky : IRavenDBService string :=
  {| GetStore := picky; GetDatabase := "Demo" |}.
End Demo.

(** * Specifications *)

(** ** What the query functions compute *)

(** The page size a query runs with. *)
Definition effective_take (take : Z) : Z :=
  if bool_decide (take ≤ 0) then 25 else Z.min take 1024.

(** The text of a query, clause by clause. *)
Definition and_clause (whereClause : string) : string :=
  if bool_decide (whereClause = EmptyString) then EmptyString
  else " AND (" +:+ whereClause +:+ ")".

Definition order_clause (orderBy : string) (orderDesc : bool) : string :=
  if bool_decide (orderBy = EmptyString) then EmptyString
  else " ORDER BY " +:+ orderBy +:+ (if orderDesc then " DESC" else EmptyString).

Definition limit_clause (skip take : Z) : string :=
  " LIMIT " +:+ fmt_d skip +:+ ", " +:+ fmt_d take.

Definition rql_text (collection whereClause orderBy : string) (orderDesc : bool)
    (skip take : Z) : string :=
  "from @all_docs where @metadata.'@collection' = '" +:+ collection +:+ "'"
  +:+ and_clause whereClause
  +:+ order_clause orderBy orderDesc
  +:+ limit_clause skip take.

(** The options as [Query] leaves them, and the text it sends for them. *)
Definition normalized (o : QueryOptions.t) : QueryOptions.t :=
  QueryOptions.with_Take (effective_take (QueryOptions.Take o)) o.

Definition rql_of (collection : string) (o : QueryOptions.t) : string :=
  rql_text collection (QueryOptions.WhereClause o) (QueryOptions.OrderBy o)
    (QueryOptions.OrderDesc o) (QueryOptions.Skip o) (QueryOptions.Take o).

(** The parameters a query is run with: none for a nil map. *)
Definition params_of (w : World) (o : QueryOptions.t) : option (gmap string value) :=
  match QueryOptions.Parameters o with
  | None => Some ∅
  | Some m => maps_heap w !! m
  end.

(** The result envelope for the rows of one page. *)
Definition page {T} `{GoType T} (o : QueryOptions.t) (rows : list (option T))
    : GenericQueryResult.t T :=
  GenericQueryResult.Build
    (default zero_value <$> rows)
    (Z.of_nat (length rows))
    (QueryOptions.Skip o)
    (QueryOptions.Take o)
    (bool_decide (QueryOptions.Take o > 0)
     && bool_decide (Z.of_nat (length rows) = QueryOptions.Take o)).

(** [Query], from the opened session on, as one function of the world. *)
Definition Query_model {T} `{GoType T} (service : IRavenDBService T)
    (collection : string) (p : loc) (w : World)
    : outcome (GenericQueryResult.t T) * World :=
  match options_heap w !! p with
  | None => (Panic, set_pending (λ _, []) w)
  | Some o =>
      let o' := normalized o in
      let w1 := set_options_heap <[p:=o']> (set_pending (λ _, []) w) in
      match params_of w o with
      | None => (Panic, w1)
      | Some params =>
          let q := rql_of collection o' in
          (match GetResults (GetStore service) q params (server w) with
           | inl e => Err ("failed to execute query: " +:+ e)
           | inr rows => Ok (page o' rows)
           end,
           set_wire (λ l, (l ++ [(q, params)])%list) w1)
      end
  end.

(** ** Options that may be nil *)

(** The object a function works on after
    [if options == nil { options = &interfaces.QueryOptions{} }],
    and the world that holds it. *)
Definition options_loc (w : World) (options : option loc) : loc :=
  match options with
  | Some p => p
  | None => fresh (dom (options_heap w))
  end.

Definition options_world (w : World) (options : option loc) : World :=
  match options with
  | Some _ => w
  | None => set_options_heap <[fresh (dom (options_heap w)):=QueryOptions.zero]> w
  end.

(** Two option values that differ in [Take] at most. *)
Definition same_but_Take (o o' : QueryOptions.t) : Prop :=
  o' = QueryOptions.with_Take (QueryOptions.Take o') o.

(** The options [QueryAll] allocates: [Skip: 0, Take: 1024]. *)
Definition all_options : QueryOptions.t :=
  QueryOptions.Build 0 1024 EmptyString false EmptyString None false.

(** ** What the query helpers hand to [Query] *)

(** The address of the [Parameters] map once it is there: the one the
    options carry, or the one [make] returns. *)
Definition parameters_loc (w : World) (o : QueryOptions.t) : loc :=
  match QueryOptions.Parameters o with
  | Some m => m
  | None => fresh (dom (maps_heap w))
  end.

(** The world in which a helper calls [Query]: the options at [p] with
    their fields rewritten by [upd], and a [Parameters] map that holds
    [params]. *)
Definition prepared (w : World) (p : loc) (o : QueryOptions.t)
    (upd : QueryOptions.t → QueryOptions.t) (params : gmap string value) : World :=
  let m := parameters_loc w o in
  set_maps_heap <[m:=params]>
    (set_options_heap <[p:=QueryOptions.with_Parameters (Some m) (upd o)]> w).

(** [upd] rewrites fields other than [Parameters]. *)
Definition keeps_Parameters (upd : QueryOptions.t → QueryOptions.t) : Prop :=
  ∀ o, QueryOptions.Parameters (upd o) = QueryOptions.Parameters o.

(** The name of the [i]-th search parameter and the predicate on it. *)
Definition search_param (i : nat) : string := "searchTerm" +:+ fmt_d (Z.of_nat i).

Definition search_predicate (i : nat) (field : string) : string :=
  "search(" +:+ field +:+ ", $" +:+ search_param i +:+ ")".

(** The predicates for [fields], the first of which has index [i]. *)
Fixpoint search_predicates (i : nat) (fields : list string) : list string :=
  match fields with
  | [] => []
  | field :: rest => search_predicate i field :: search_predicates (S i) rest
  end.

(** The bindings of the search term to [n] parameters from index [i] on. *)
Fixpoint search_binds (term : string) (i n : nat) (g : gmap string value)
    : gmap string value :=
  match n with
  | O => g
  | S n' => search_binds term (S i) n' (<[search_param i:=VStr term]> g)
  end.

(** The [WhereClause] of a search over [fields]. *)
Definition search_clause (fields : list string) : string :=
  "(" +:+ String.concat " OR " (imap search_predicate fields) +:+ ")".

(** What a caller who passed the options at [p] (then holding [o], in the
    world [w]) finds in the world [w'] after a helper returned: the new
    [WhereClause], a [Parameters] map (the caller's own, or one made for a
    nil map) that holds [params'], and every field but [WhereClause],
    [Parameters] and [Take] as it was. *)
Definition mutated_in_place (w w' : World) (p : loc) (o : QueryOptions.t)
    (clause : string) (params' : gmap string value) : Prop :=
  ∃ o' m,
    options_heap w' !! p = Some o'
    ∧ QueryOptions.WhereClause o' = clause
    ∧ QueryOptions.Parameters o' = Some m
    ∧ (∀ m0, QueryOptions.Parameters o = Some m0 → m = m0)
    ∧ (QueryOptions.Parameters o = None → maps_heap w !! m = None)
    ∧ maps_heap w' !! m = Some params'
    ∧ QueryOptions.Skip o' = QueryOptions.Skip o
    ∧ QueryOptions.OrderBy o' = QueryOptions.OrderBy o
    ∧ QueryOptions.OrderDesc o' = QueryOptions.OrderDesc o
    ∧ QueryOptions.IncludeTotal o' = QueryOptions.IncludeTotal o.

(** ** What the CRUD operations do *)

(** The world once the deferred [session.Close()] has run. *)
Definition closed (w : World) : World := set_pending (λ _, []) w.

(** The text of the not-found error. *)
Definition not_found (id : string) : string :=
  "document with ID " +:+ id +:+ " not found".

(** [return session.SaveChanges()] at the end of an operation that makes
    the committed documents [srv']. *)
Definition commit {T} (store : DocumentStore T) (w : World)
    (srv' : gmap string document) : outcome unit * World :=
  match SaveChanges_err store with
  | Some e => (Err e, closed w)
  | None => (Ok tt, closed (set_server (λ _, srv') w))
  end.

(** The committed documents without those named in [ids]. *)
Definition without (ids : list string) (srv : gmap string document)
    : gmap string document :=
  foldl (λ srv id, delete id srv) srv ids.

(** * Properties *)

(** ** Strings *)

Lemma append_nil_r (s : string) : s +:+ EmptyString = s.
Proof.
  induction s as [|a s IH]; [done|].
  change (String a (s +:+ EmptyString) = String a s). by rewrite IH.
Qed.

Lemma append_assoc (a b c : string) : (a +:+ b) +:+ c = a +:+ (b +:+ c).
Proof.
  induction a as [|x a IH]; [done|].
  change (String x ((a +:+ b) +:+ c) = String x (a +:+ (b +:+ c))). by rewrite IH.
Qed.

(** ** Stepping through the monad *)

Lemma bind_Ok {A B} (m : M A) (k : A → M B) w a w' :
  m w = (Ok a, w') → bind m k w = k a w'.
Proof. unfold bind. by intros ->. Qed.

Lemma read_options_Some p o w :
  options_heap w !! p = Some o → read_options p w = (Ok o, w).
Proof. unfold read_options. by intros ->. Qed.

Lemma write_options_Some p f o w :
  options_heap w !! p = Some o →
  write_options p f w = (Ok tt, set_options_heap <[p:=f o]> w).
Proof.
  intros Hp. unfold write_options.
  by rewrite (bind_Ok _ _ _ _ _ (read_options_Some _ _ _ Hp)).
Qed.

Lemma with_Take_same (o : QueryOptions.t) :
  QueryOptions.with_Take (QueryOptions.Take o) o = o.
Proof. by destruct o. Qed.

Lemma set_options_heap_insert_id p o (w : World) :
  options_heap w !! p = Some o → set_options_heap <[p:=o]> w = w.
Proof.
  intros Hp. destruct w as [s pe h mh wi]; unfold set_options_heap; simpl in *.
  by rewrite (insert_id h p o Hp).
Qed.

(** ** The rows of a page *)

Section rows.
Context {T : Type} `{GoType T}.

Lemma deref_rows_app (pre : list T) (results : list (option T)) :
  deref_rows (length pre) results (pre ++ replicate (length results) zero_value)
  = pre ++ (default zero_value <$> results).
Proof.
  revert pre. induction results as [|r rest IH]; intros pre; simpl; [done|].
  destruct r as [v|]; simpl.
  - replace (<[length pre:=v]> (pre ++ zero_value :: replicate (length rest) zero_value))
      with ((pre ++ [v]) ++ replicate (length rest) zero_value).
    + replace (S (length pre)) with (length (pre ++ [v])) by (rewrite length_app; simpl; lia).
      rewrite IH. by rewrite <- app_assoc.
    + rewrite insert_app_r_alt by lia.
      rewrite Nat.sub_diag. simpl. by rewrite <- app_assoc.
  - replace (pre ++ zero_value :: replicate (length rest) zero_value)
      with ((pre ++ [zero_value]) ++ replicate (length rest) zero_value)
      by (by rewrite <- app_assoc).
    replace (S (length pre)) with (length (pre ++ [zero_value]))
      by (rewrite length_app; simpl; lia).
    rewrite IH. by rewrite <- app_assoc.
Qed.

Lemma deref_rows_spec (results : list (option T)) :
  deref_rows 0 results (replicate (length results) zero_value)
  = default zero_value <$> results.
Proof. exact (deref_rows_app [] results). Qed.
End rows.

(** ** [Query] against its model *)

Lemma effective_take_bounds (take : Z) : 1 ≤ effective_take take ≤ 1024.
Proof. unfold effective_take. case_bool_decide; lia. Qed.

(** The three reads and two writes that normalize [Take]. *)
Lemma normalize_steps {A} (k : QueryOptions.t → M A) p o w :
  options_heap w !! p = Some o →
  (o0 <- read_options p ;;
   (if bool_decide (QueryOptions.Take o0 ≤ 0)
    then write_options p (QueryOptions.with_Take 25) else ret tt) ;;;
   o1 <- read_options p ;;
   (if bool_decide (QueryOptions.Take o1 > 1024)
    then write_options p (QueryOptions.with_Take 1024) else ret tt) ;;;
   o2 <- read_options p ;;
   k o2) w
  = k (normalized o) (set_options_heap <[p:=normalized o]> w).
Proof.
  intros Hp. unfold normalized, effective_take.
  rewrite (bind_Ok _ _ _ _ _ (read_options_Some _ _ _ Hp)).
  case_bool_decide as Hlow.
  - rewrite (bind_Ok _ _ _ _ _ (write_options_Some _ _ _ _ Hp)).
    set (w1 := set_options_heap _ w).
    assert (Hp1 : options_heap w1 !! p = Some (QueryOptions.with_Take 25 o))
      by (subst w1; simpl; apply lookup_insert_eq).
    rewrite (bind_Ok _ _ _ _ _ (read_options_Some _ _ _ Hp1)).
    rewrite bool_decide_eq_false_2 by (simpl; lia).
    rewrite (bind_Ok _ _ _ _ w1 (eq_refl : ret tt w1 = (Ok tt, w1))).
    by rewrite (bind_Ok _ _ _ _ _ (read_options_Some _ _ _ Hp1)).
  - rewrite (bind_Ok _ _ _ _ w (eq_refl : ret tt w = (Ok tt, w))).
    rewrite (bind_Ok _ _ _ _ _ (read_options_Some _ _ _ Hp)).
    case_bool_decide as Hhigh.
    + rewrite (bind_Ok _ _ _ _ _ (write_options_Some _ _ _ _ Hp)).
      set (w1 := set_options_heap _ w).
      assert (Hp1 : options_heap w1 !! p = Some (QueryOptions.with_Take 1024 o))
        by (subst w1; simpl; apply lookup_insert_eq).
      rewrite (bind_Ok _ _ _ _ _ (read_options_Some _ _ _ Hp1)).
      by rewrite Z.min_r by lia.
    + rewrite (bind_Ok _ _ _ _ w (eq_refl : ret tt w = (Ok tt, w))).
      rewrite (bind_Ok _ _ _ _ _ (read_options_Some _ _ _ Hp)).
      rewrite Z.min_l by lia. rewrite with_Take_same.
      by rewrite (set_options_heap_insert_id _ _ _ Hp).
Qed.

(** The text assembled by the string builder. *)
Lemma builder_text collection (o : QueryOptions.t) :
  QueryOptions.Take o > 0 →
  (let rqlQuery := "from @all_docs where @metadata.'@collection' = '" +:+ collection +:+ "'" in
   let rqlQuery :=
     if bool_decide (QueryOptions.WhereClause o ≠ EmptyString)
     then rqlQuery +:+ " AND (" +:+ QueryOptions.WhereClause o +:+ ")"
     else rqlQuery in
   let rqlQuery :=
     if bool_decide (QueryOptions.OrderBy o ≠ EmptyString)
     then if QueryOptions.OrderDesc o
          then rqlQuery +:+ " ORDER BY " +:+ QueryOptions.OrderBy o +:+ " DESC"
          else rqlQuery +:+ " ORDER BY " +:+ QueryOptions.OrderBy o
     else rqlQuery in
   if bool_decide (QueryOptions.Skip o > 0) || bool_decide (QueryOptions.Take o > 0)
   then let skip := QueryOptions.Skip o in
        let take := QueryOptions.Take o in
        let take := if bool_decide (take ≤ 0) then 25 else take in
        rqlQuery +:+ " LIMIT " +:+ fmt_d skip +:+ ", " +:+ fmt_d take
   else rqlQuery)
  = rql_of collection o.
Proof.
  intros Hpos. cbv zeta.
  rewrite (bool_decide_eq_true_2 (QueryOptions.Take o > 0)) by done.
  rewrite orb_true_r.
  rewrite (bool_decide_eq_false_2 (QueryOptions.Take o ≤ 0)) by lia.
  unfold rql_of, rql_text, and_clause, order_clause, limit_clause.
  repeat case_bool_decide; try done; try destruct (QueryOptions.OrderDesc o);
    rewrite ?append_assoc, ?append_nil_r; done.
Qed.

Lemma normalized_Take_pos (o : QueryOptions.t) : QueryOptions.Take (normalized o) > 0.
Proof. simpl. pose proof (effective_take_bounds (QueryOptions.Take o)). lia. Qed.

Section query_refinement.
Context {T : Type} `{GoType T}.

Lemma Query_from_session (service : IRavenDBService T) collection p w :
  OpenSession_err (GetStore service) (GetDatabase service) = None →
  Query service collection (Some p) w = Query_model service collection p w.
Proof.
  intros Hopen. unfold Query, Query_model, OpenSession, defer_Close.
  rewrite Hopen. unfold check, or_new.
  unfold bind at 1. unfold ret at 1. unfold bind at 1. unfold modify at 1.
  unfold bind at 1. unfold ret at 1.
  set (w0 := set_pending _ w).
  destruct (options_heap w !! p) as [o|] eqn:Hp.
  - assert (Hp0 : options_heap w0 !! p = Some o) by done.
    rewrite (normalize_steps _ p o w0 Hp0).
    pose proof (builder_text collection (normalized o) (normalized_Take_pos o)) as Htext.
    cbv zeta in Htext. rewrite Htext. clear Htext.
    change (QueryOptions.Parameters (normalized o)) with (QueryOptions.Parameters o).
    unfold params_of, page.
    assert (Hrows : ∀ rows : list (option T),
               length (deref_rows 0 rows (replicate (length rows) zero_value))
               = length rows)
      by (intros rows; by rewrite deref_rows_spec, length_fmap).
    destruct (QueryOptions.Parameters o) as [m|].
    + unfold bind at 1, map_entries. simpl.
      destruct (maps_heap w !! m) as [params|]; [|done].
      cbv [bind RawQuery_GetResults modify ret]. simpl.
      destruct (GetResults _ _ _ _) as [e|rows]; [done|].
      by rewrite Hrows, deref_rows_spec.
    + cbv [bind RawQuery_GetResults modify ret]. simpl.
      destruct (GetResults _ _ _ _) as [e|rows]; [done|].
      by rewrite Hrows, deref_rows_spec.
  - unfold bind, read_options. simpl. by rewrite Hp.
Qed.

Lemma Query_session_error (service : IRavenDBService T) collection options w e :
  OpenSession_err (GetStore service) (GetDatabase service) = Some e →
  Query service collection options w = (Err ("failed to open session: " +:+ e), w).
Proof.
  intros Hopen. unfold Query, OpenSession. rewrite Hopen. done.
Qed.

Lemma Query_nil (service : IRavenDBService T) collection w :
  OpenSession_err (GetStore service) (GetDatabase service) = None →
  Query service collection None w
  = Query service collection (Some (fresh (dom (options_heap w))))
      (set_options_heap <[fresh (dom (options_heap w)):=QueryOptions.zero]> w).
Proof.
  intros Hopen. unfold Query, OpenSession, defer_Close.
  rewrite Hopen. done.
Qed.

(** The methods of [CollectionService] are the free functions at the
    service and the collection the value was built with. *)
Lemma CollectionService_Query (cs : CollectionService.t T) options :
  CollectionService.Query cs options
  = Query (CollectionService.database cs) (CollectionService.collection cs) options.
Proof. reflexivity. Qed.

Lemma CollectionService_QueryAll (cs : CollectionService.t T) :
  CollectionService.QueryAll cs
  = QueryAll (CollectionService.database cs) (CollectionService.collection cs).
Proof. reflexivity. Qed.

Lemma CollectionService_QueryByField (cs : CollectionService.t T) f v options :
  CollectionService.QueryByField cs f v options
  = QueryByField (CollectionService.database cs) (CollectionService.collection cs)
      f v options.
Proof. reflexivity. Qed.

Lemma CollectionService_QueryByRange (cs : CollectionService.t T) f lo hi options :
  CollectionService.QueryByRange cs f lo hi options
  = QueryByRange (CollectionService.database cs) (CollectionService.collection cs)
      f lo hi options.
Proof. reflexivity. Qed.

Lemma CollectionService_Search (cs : CollectionService.t T) term fields options :
  CollectionService.Search cs term fields options
  = Search (CollectionService.database cs) (CollectionService.collection cs)
      term fields options.
Proof. reflexivity. Qed.
End query_refinement.

(** ** The helpers that build a [WhereClause] *)

Lemma search_predicates_imap i fields :
  search_predicates i fields = imap (λ j, search_predicate (i + j)) fields.
Proof.
  revert i. induction fields as [|f rest IH]; intros i; simpl; [done|].
  rewrite Nat.add_0_r. f_equal. rewrite IH.
  apply imap_ext. intros j x _. simpl. f_equal. lia.
Qed.

Lemma search_binds_keep term i n (g : gmap string value) k :
  g !! k = Some (VStr term) → search_binds term i n g !! k = Some (VStr term).
Proof.
  revert i g. induction n as [|n IH]; intros i g Hk; simpl; [done|].
  apply IH. destruct (decide (search_param i = k)) as [->|Hne].
  - apply lookup_insert_eq.
  - by rewrite lookup_insert_ne.
Qed.

Lemma search_binds_lookup term i n (g : gmap string value) j :
  (i ≤ j < i + n)%nat → search_binds term i n g !! search_param j = Some (VStr term).
Proof.
  revert i g. induction n as [|n IH]; intros i g Hj; simpl; [lia|].
  destruct (decide (i = j)) as [->|Hne].
  - apply search_binds_keep, lookup_insert_eq.
  - apply IH. lia.
Qed.

Lemma ensure_Parameters_run p o w :
  options_heap w !! p = Some o →
  ensure_Parameters p w
  = (Ok tt,
     match QueryOptions.Parameters o with
     | Some _ => w
     | None =>
         set_options_heap
           <[p:=QueryOptions.with_Parameters (Some (fresh (dom (maps_heap w)))) o]>
           (set_maps_heap <[fresh (dom (maps_heap w)):=∅]> w)
     end).
Proof.
  intros Hp. unfold ensure_Parameters.
  rewrite (bind_Ok _ _ _ _ _ (read_options_Some _ _ _ Hp)).
  destruct (QueryOptions.Parameters o) as [m|]; [done|].
  unfold bind at 1, make_map.
  by rewrite (write_options_Some _ _ o).
Qed.

Lemma Parameters_assign_run p o m g key v w :
  options_heap w !! p = Some o →
  QueryOptions.Parameters o = Some m →
  maps_heap w !! m = Some g →
  Parameters_assign p key v w = (Ok tt, set_maps_heap <[m:=<[key:=v]> g]> w).
Proof.
  intros Hp Hm Hg. unfold Parameters_assign.
  rewrite (bind_Ok _ _ _ _ _ (read_options_Some _ _ _ Hp)).
  rewrite Hm. unfold map_assign. by rewrite Hg.
Qed.

Lemma Search_loop_run p o m term fields : ∀ i conds g w,
  options_heap w !! p = Some o →
  QueryOptions.Parameters o = Some m →
  maps_heap w !! m = Some g →
  Search_loop p term i fields conds w
  = (Ok (conds ++ search_predicates i fields),
     set_maps_heap <[m:=search_binds term i (length fields) g]> w).
Proof.
  induction fields as [|f rest IH]; intros i conds g w Hp Hm Hg; simpl.
  - unfold ret. rewrite app_nil_r. f_equal.
    destruct w as [s pe h mh wi]; unfold set_maps_heap; simpl in *.
    by rewrite (insert_id mh m g Hg).
  - rewrite (bind_Ok _ _ _ _ _ (Parameters_assign_run _ _ _ _ _ _ _ Hp Hm Hg)).
    rewrite (IH _ _ (<[search_param i:=VStr term]> g)); try done.
    + rewrite <- app_assoc. f_equal.
      destruct w as [s pe h mh wi]; unfold set_maps_heap; simpl.
      by rewrite insert_insert_eq.
    + simpl. apply lookup_insert_eq.
Qed.

Lemma prepared_options w p o upd params :
  options_heap (prepared w p o upd params) !! p
  = Some (QueryOptions.with_Parameters (Some (parameters_loc w o)) (upd o)).
Proof. unfold prepared. simpl. apply lookup_insert_eq. Qed.

Lemma prepared_map w p o upd params :
  maps_heap (prepared w p o upd params) !! parameters_loc w o = Some params.
Proof. unfold prepared. simpl. apply lookup_insert_eq. Qed.

Lemma with_Parameters_same (o : QueryOptions.t) m :
  QueryOptions.Parameters o = Some m → QueryOptions.with_Parameters (Some m) o = o.
Proof. destruct o; simpl; by intros ->. Qed.

Lemma ensure_Parameters_prepared w p o upd g :
  keeps_Parameters upd →
  params_of w o = Some g →
  ensure_Parameters p (set_options_heap <[p:=upd o]> w) = (Ok tt, prepared w p o upd g).
Proof.
  intros Hk Hg.
  rewrite (ensure_Parameters_run p (upd o)) by (simpl; apply lookup_insert_eq).
  f_equal. unfold prepared, parameters_loc, params_of in *. rewrite Hk.
  destruct (QueryOptions.Parameters o) as [m|] eqn:Hm.
  - rewrite with_Parameters_same by (by rewrite Hk).
    destruct w as [s pe h mh wi]; unfold set_maps_heap, set_options_heap; simpl in *.
    by rewrite (insert_id mh m g Hg).
  - injection Hg as <-.
    destruct w as [s pe h mh wi]; unfold set_maps_heap, set_options_heap; simpl in *.
    by rewrite insert_insert_eq.
Qed.

Lemma Parameters_assign_prepared w p o upd g key v :
  Parameters_assign p key v (prepared w p o upd g)
  = (Ok tt, prepared w p o upd (<[key:=v]> g)).
Proof.
  rewrite (Parameters_assign_run p _ (parameters_loc w o) g)
    by (first [apply prepared_options | apply prepared_map | done]).
  f_equal. unfold prepared.
  destruct w as [s pe h mh wi]; unfold set_maps_heap, set_options_heap; simpl.
  by rewrite insert_insert_eq.
Qed.

Lemma Search_loop_prepared w p o upd g term i fields conds :
  Search_loop p term i fields conds (prepared w p o upd g)
  = (Ok (conds ++ search_predicates i fields),
     prepared w p o upd (search_binds term i (length fields) g)).
Proof.
  rewrite (Search_loop_run p _ (parameters_loc w o) term fields i conds g)
    by (first [apply prepared_options | apply prepared_map | done]).
  f_equal. unfold prepared.
  destruct w as [s pe h mh wi]; unfold set_maps_heap, set_options_heap; simpl.
  by rewrite insert_insert_eq.
Qed.

Lemma write_WhereClause_prepared w p o upd g clause :
  write_options p (QueryOptions.with_WhereClause clause) (prepared w p o upd g)
  = (Ok tt, prepared w p o (λ o, QueryOptions.with_WhereClause clause (upd o)) g).
Proof.
  rewrite (write_options_Some _ _ _ _ (prepared_options _ _ _ _ _)).
  f_equal. unfold prepared.
  destruct w as [s pe h mh wi]; unfold set_maps_heap, set_options_heap; simpl.
  by rewrite insert_insert_eq.
Qed.

Section helpers.
Context {T : Type} `{GoType T}.
Variable service : IRavenDBService T.
Variable collection : string.

Lemma QueryByField_prepared fieldName fieldValue p o g w :
  options_heap w !! p = Some o →
  params_of w o = Some g →
  QueryByField service collection fieldName fieldValue (Some p) w
  = Query service collection (Some p)
      (prepared w p o (QueryOptions.with_WhereClause (fieldName +:+ " = $value"))
         (<["value":=fieldValue]> g)).
Proof.
  intros Hp Hg. unfold QueryByField, or_new.
  rewrite (bind_Ok _ _ w p w eq_refl).
  rewrite (bind_Ok _ _ _ _ _ (write_options_Some _ _ _ _ Hp)).
  rewrite (bind_Ok _ _ _ _ _
             (ensure_Parameters_prepared w p o
                (QueryOptions.with_WhereClause (fieldName +:+ " = $value")) g
                (λ _, eq_refl) Hg)).
  by rewrite (bind_Ok _ _ _ _ _ (Parameters_assign_prepared _ _ _ _ _ _ _)).
Qed.

Lemma QueryByRange_prepared fieldName minValue maxValue p o g w :
  options_heap w !! p = Some o →
  params_of w o = Some g →
  QueryByRange service collection fieldName minValue maxValue (Some p) w
  = Query service collection (Some p)
      (prepared w p o
         (QueryOptions.with_WhereClause
            (fieldName +:+ " >= $minValue AND " +:+ fieldName +:+ " <= $maxValue"))
         (<["maxValue":=maxValue]> (<["minValue":=minValue]> g))).
Proof.
  intros Hp Hg. unfold QueryByRange, or_new.
  rewrite (bind_Ok _ _ w p w eq_refl).
  rewrite (bind_Ok _ _ _ _ _ (write_options_Some _ _ _ _ Hp)).
  rewrite (bind_Ok _ _ _ _ _
             (ensure_Parameters_prepared w p o
                (QueryOptions.with_WhereClause
                   (fieldName +:+ " >= $minValue AND " +:+ fieldName +:+ " <= $maxValue"))
                g (λ _, eq_refl) Hg)).
  rewrite (bind_Ok _ _ _ _ _ (Parameters_assign_prepared _ _ _ _ _ _ _)).
  by rewrite (bind_Ok _ _ _ _ _ (Parameters_assign_prepared _ _ _ _ _ _ _)).
Qed.

Lemma set_options_heap_same p o w :
  options_heap w !! p = Some o → set_options_heap <[p:=o]> w = w.
Proof. apply set_options_heap_insert_id. Qed.

Lemma Search_prepared searchTerm searchFields p o g w :
  options_heap w !! p = Some o →
  params_of w o = Some g →
  Search service collection searchTerm searchFields (Some p) w
  = Query service collection (Some p)
      (prepared w p o
         (match searchFields with
          | [] => λ o, o
          | _ :: _ => QueryOptions.with_WhereClause (search_clause searchFields)
          end)
         (search_binds searchTerm 0 (length searchFields) g)).
Proof.
  intros Hp Hg. unfold Search, or_new.
  rewrite (bind_Ok _ _ w p w eq_refl).
  rewrite <- (set_options_heap_same p o w Hp) at 1.
  rewrite (bind_Ok _ _ _ _ _
             (ensure_Parameters_prepared w p o (λ o, o) g (λ _, eq_refl) Hg)).
  rewrite (bind_Ok _ _ _ _ _ (Search_loop_prepared _ _ _ _ _ _ _ _ _)).
  simpl app. rewrite search_predicates_imap. simpl Nat.add.
  destruct searchFields as [|f rest].
  - simpl. rewrite (bind_Ok _ _ _ tt _ eq_refl). done.
  - rewrite bool_decide_eq_true_2 by (simpl; lia).
    by rewrite (bind_Ok _ _ _ _ _ (write_WhereClause_prepared _ _ _ _ _ _)).
Qed.
End helpers.

(** ** Sessions and CRUD *)

Lemma session_view_foldr cs (srv : gmap string document) id :
  session_view cs srv id = foldr apply_change srv cs !! id.
Proof.
  induction cs as [|c cs IH]; simpl; [done|].
  destruct c as [i d|i]; simpl; case_decide as Hi.
  - subst. by rewrite lookup_insert_eq.
  - by rewrite lookup_insert_ne.
  - subst. by rewrite lookup_delete_eq.
  - by rewrite lookup_delete_ne.
Qed.



Lemma without_lookup ids (srv : gmap string document) id :
  without ids srv !! id = if decide (id ∈ ids) then None else srv !! id.
Proof.
  revert srv. induction ids as [|i ids IH]; intros srv.
  - by rewrite decide_False by apply not_elem_of_nil.
  - change (without (i :: ids) srv) with (without ids (delete i srv)).
    rewrite IH. destruct (decide (id ∈ ids)) as [Hin|Hnin].
    + by rewrite decide_True by (apply elem_of_cons; by right).
    + destruct (decide (i = id)) as [->|Hne].
      * rewrite decide_True by (apply elem_of_cons; by left). apply lookup_delete_eq.
      * rewrite decide_False by (rewrite elem_of_cons; intros [?|?]; done).
        by apply lookup_delete_ne.
Qed.

Section crud.
Context {T : Type} `{GoType T}.

Lemma DeleteMultiple_loop_run (store : DocumentStore T) ids : ∀ w,
  (∀ id, id ∈ ids → Load_err store id = None) →
  ∃ cs, CollectionService.DeleteMultiple_loop store ids w = (Ok tt, set_pending (λ _, cs) w)
        ∧ foldr apply_change (server w) cs
          = without ids (foldr apply_change (server w) (pending w)).
Proof.
  induction ids as [|id ids IH]; intros w Hload; simpl.
  - exists (pending w). split; [|done]. unfold ret. by destruct w.
  - unfold session_Load. rewrite (Hload id) by set_solver.
    cbv [check bind ret gets]. rewrite session_view_foldr.
    destruct (foldr apply_change (server w) (pending w) !! id) as [d|] eqn:Hd.
    + destruct (IH (set_pending (cons (Del id)) w)) as (cs & Hrun & Hcs);
        [intros; apply Hload, elem_of_cons; by right|].
      exists cs. unfold session_Delete, modify. split; [by rewrite Hrun|done].
    + destruct (IH w) as (cs & Hrun & Hcs); [intros; apply Hload, elem_of_cons; by right|].
      exists cs. split; [done|]. by rewrite delete_id.
Qed.
End crud.

Section crud_operations.
Context {T : Type} `{GoType T}.


Lemma Delete_run (cs : CollectionService.t T) id w :
  let store := GetStore (CollectionService.database cs) in
  OpenSession_err store (GetDatabase (CollectionService.database cs)) = None →
  Load_err store id = None →
  CollectionService.Delete cs id w
  = match server w !! id with
    | None => (Err (not_found id), closed w)
    | Some _ => commit store w (delete id (server w))
    end.
Proof.
  intros store Hopen Hload.
  unfold CollectionService.Delete, OpenSession, defer_Close, session_Load.
  fold store. rewrite Hopen, Hload. cbv [check bind ret modify gets]. simpl.
  destruct (server w !! id) as [doc|]; [|done].
  unfold session_Delete, commit, session_SaveChanges.
  cbv [bind modify]. simpl.
  by destruct (SaveChanges_err store).
Qed.

Lemma DeleteMultiple_run (cs : CollectionService.t T) ids w :
  let store := GetStore (CollectionService.database cs) in
  OpenSession_err store (GetDatabase (CollectionService.database cs)) = None →
  (∀ id, id ∈ ids → Load_err store id = None) →
  CollectionService.DeleteMultiple cs ids w = commit store w (without ids (server w)).
Proof.
  intros store Hopen Hload.
  unfold CollectionService.DeleteMultiple, OpenSession, defer_Close.
  fold store. rewrite Hopen. cbv [check]. unfold bind at 1, ret at 1.
  unfold bind at 1, modify at 1.
  destruct (DeleteMultiple_loop_run store ids (set_pending (λ _, []) w) Hload)
    as (cs' & Hrun & Hcs).
  rewrite (bind_Ok _ _ _ _ _ Hrun). simpl in Hcs.
  unfold commit, session_SaveChanges.
  destruct (SaveChanges_err store) as [e|]; [done|].
  unfold modify, closed, set_server, set_pending. simpl. by rewrite Hcs.
Qed.
End crud_operations.

(** ** Calls with options that may be nil *)

Lemma options_world_nil w :
  options_heap (options_world w None) !! options_loc w None = Some QueryOptions.zero.
Proof. simpl. apply lookup_insert_eq. Qed.

Section any_options.
Context {T : Type} `{GoType T}.
Variable service : IRavenDBService T.
Variable collection : string.

Lemma Query_run options w :
  OpenSession_err (GetStore service) (GetDatabase service) = None →
  Query service collection options w
  = Query_model service collection (options_loc w options) (options_world w options).
Proof.
  intros Hopen. destruct options as [p|].
  - by apply Query_from_session.
  - rewrite Query_nil by done. by apply Query_from_session.
Qed.

Lemma QueryByField_any fieldName fieldValue options w :
  QueryByField service collection fieldName fieldValue options w
  = QueryByField service collection fieldName fieldValue
      (Some (options_loc w options)) (options_world w options).
Proof. by destruct options. Qed.

Lemma QueryByRange_any fieldName minValue maxValue options w :
  QueryByRange service collection fieldName minValue maxValue options w
  = QueryByRange service collection fieldName minValue maxValue
      (Some (options_loc w options)) (options_world w options).
Proof. by destruct options. Qed.

Lemma Search_any searchTerm searchFields options w :
  Search service collection searchTerm searchFields options w
  = Search service collection searchTerm searchFields
      (Some (options_loc w options)) (options_world w options).
Proof. by destruct options. Qed.

(** What a call of [Query] leaves behind: the options it was given
    differ in [Take] at most, and no [Parameters] map is touched. *)
Lemma Query_frame p o w :
  options_heap w !! p = Some o →
  ∃ take,
    options_heap (Query service collection (Some p) w).2 !! p
    = Some (QueryOptions.with_Take take o)
    ∧ maps_heap (Query service collection (Some p) w).2 = maps_heap w.
Proof.
  intros Hp.
  destruct (OpenSession_err (GetStore service) (GetDatabase service)) as [e|] eqn:Hopen.
  - rewrite (Query_session_error _ _ _ _ e Hopen). simpl.
    exists (QueryOptions.Take o). by rewrite with_Take_same.
  - rewrite Query_from_session by done. unfold Query_model. rewrite Hp.
    exists (effective_take (QueryOptions.Take o)).
    destruct (params_of w o); simpl; by rewrite lookup_insert_eq.
Qed.

(** The one query a call sends once its session is open. *)
Lemma Query_wire p o params w :
  OpenSession_err (GetStore service) (GetDatabase service) = None →
  options_heap w !! p = Some o →
  params_of w o = Some params →
  wire (Query service collection (Some p) w).2
  = wire w ++ [(rql_of collection (normalized o), params)].
Proof.
  intros Hopen Hp Hparams. rewrite Query_from_session by done.
  unfold Query_model. by rewrite Hp, Hparams.
Qed.

(** A returned page comes from an opened session, options that are
    there, and rows of the engine. *)
Lemma Query_Ok_inv options w res w' :
  Query service collection options w = (Ok res, w') →
  ∃ o params rows,
    options_heap (options_world w options) !! options_loc w options = Some o
    ∧ params_of (options_world w options) o = Some params
    ∧ GetResults (GetStore service) (rql_of collection (normalized o)) params (server w)
      = inr rows
    ∧ res = page (normalized o) rows.
Proof.
  destruct (OpenSession_err (GetStore service) (GetDatabase service)) as [e|] eqn:Hopen.
  - by rewrite (Query_session_error _ _ _ _ e Hopen).
  - rewrite Query_run by done. unfold Query_model.
    destruct (options_heap _ !! _) as [o|] eqn:Ho; [|done].
    destruct (params_of _ o) as [params|] eqn:Hparams; [|done].
    replace (server (options_world w options)) with (server w) by (by destruct options).
    destruct (GetResults _ _ _ _) as [e|rows] eqn:Hrows; [done|].
    intros [= <- _]. by exists o, params, rows.
Qed.
End any_options.

(** ** [QueryAll] and [Count] *)

Section query_all.
Context {T : Type} `{GoType T}.
Variable service : IRavenDBService T.
Variable collection : string.

Lemma QueryAll_as_Query w :
  QueryAll service collection w
  = Query service collection (Some (fresh (dom (options_heap w))))
      (set_options_heap <[fresh (dom (options_heap w)):=all_options]> w).
Proof. reflexivity. Qed.

Lemma QueryAll_Ok_inv w res w' :
  QueryAll service collection w = (Ok res, w') →
  ∃ rows,
    GetResults (GetStore service)
      (rql_text collection EmptyString EmptyString false 0 1024) ∅ (server w) = inr rows
    ∧ res = page all_options rows
    ∧ wire w' = wire w ++ [(rql_text collection EmptyString EmptyString false 0 1024, ∅)].
Proof.
  rewrite QueryAll_as_Query.
  destruct (OpenSession_err (GetStore service) (GetDatabase service)) as [e|] eqn:Hopen.
  - by rewrite (Query_session_error _ _ _ _ e Hopen).
  - rewrite Query_from_session by done. unfold Query_model. simpl options_heap.
    rewrite lookup_insert_eq. simpl.
    destruct (GetResults _ _ _ _) as [e|rows] eqn:Hrows; [done|].
    intros [= <- <-]. by exists rows.
Qed.
End query_all.

(** * Main results *)

(** C1.  For every [QueryOptions] handed to [Query] (the free function
    and the method of [CollectionService] alike), the query runs with a
    page size of 25 when the supplied [Take] is at most 0 and of
    [min Take 1024] otherwise: that is the number in the LIMIT clause of
    the text sent to the engine and the [Take] of the returned page.  In
    particular a call with [Take = 5000] and a call with [Take = 1024] have
    the same outcome and leave the same world. *)
Theorem Query_clamps_Take {T} `{GoType T} (service : IRavenDBService T)
    (collection : string) (p : loc) (o : QueryOptions.t)
    (params : gmap string value) (w : World) :
  OpenSession_err (GetStore service) (GetDatabase service) = None →
  options_heap w !! p = Some o →
  params_of w o = Some params →
  CollectionService.Query (CollectionService.Build service collection) (Some p) w
  = Query service collection (Some p) w
  ∧ wire (Query service collection (Some p) w).2
    = wire w ++
      [(rql_text collection (QueryOptions.WhereClause o) (QueryOptions.OrderBy o)
          (QueryOptions.OrderDesc o) (QueryOptions.Skip o)
          (if bool_decide (QueryOptions.Take o ≤ 0) then 25
           else Z.min (QueryOptions.Take o) 1024),
        params)]
  ∧ (∀ res, (Query service collection (Some p) w).1 = Ok res →
            GenericQueryResult.Take res
            = if bool_decide (QueryOptions.Take o ≤ 0) then 25
              else Z.min (QueryOptions.Take o) 1024)
  ∧ Query service collection (Some p)
      (set_options_heap <[p:=QueryOptions.with_Take 5000 o]> w)
    = Query service collection (Some p)
        (set_options_heap <[p:=QueryOptions.with_Take 1024 o]> w).
Proof.
  intros Hopen Hp Hparams. split; [done|].
  rewrite !Query_from_session by done. unfold Query_model.
  simpl options_heap. rewrite !lookup_insert_eq, Hp, Hparams.
  split; [done|]. split.
  - simpl. destruct (GetResults _ _ _ _) as [e|rows]; [done|].
    by intros res [= <-].
  - change (params_of (set_options_heap <[p:=QueryOptions.with_Take 5000 o]> w)
              (QueryOptions.with_Take 5000 o)) with (params_of w o).
    change (params_of (set_options_heap <[p:=QueryOptions.with_Take 1024 o]> w)
              (QueryOptions.with_Take 1024 o)) with (params_of w o).
    rewrite Hparams.
    change (normalized (QueryOptions.with_Take 5000 o))
      with (normalized (QueryOptions.with_Take 1024 o)).
    f_equal. destruct w as [s pe h mh wi]; unfold set_wire, set_options_heap, set_pending.
    simpl. by rewrite !insert_insert_eq.
Qed.

Lemma Query_clamps_Take_witness :
  OpenSession_err (GetStore Demo.service) (GetDatabase Demo.service) = None
  ∧ options_heap (Demo.options_at (Demo.take_only 5000)) !! 1%positive
    = Some (Demo.take_only 5000)
  ∧ params_of (Demo.options_at (Demo.take_only 5000)) (Demo.take_only 5000) = Some ∅
  ∧ wire (Query Demo.service "Users" (Some 1%positive)
            (Demo.options_at (Demo.take_only 5000))).2
    = [("from @all_docs where @metadata.'@collection' = 'Users' LIMIT 0, 1024", ∅)].
Proof.
  split; [reflexivity|]. split; [reflexivity|]. split; [reflexivity|].
  destruct (Query_clamps_Take Demo.service "Users" 1%positive (Demo.take_only 5000) ∅
              (Demo.options_at (Demo.take_only 5000)) eq_refl eq_refl eq_refl)
    as (_ & Hwire & _).
  rewrite Hwire. reflexivity.
Defined.

(** C2, as amended.  The text [Query] builds (free function and method
    alike) is the collection filter, then [ AND (<where>)] iff
    [WhereClause] is not empty, then [ ORDER BY <field>] (with [ DESC] iff
    [OrderDesc]) iff [OrderBy] is not empty, then [ LIMIT <skip>, <take>];
    [Take] is normalized to a number from 1 to 1024 before this step (not
    to at least 25), so the LIMIT clause is there on every query. *)
Theorem Query_text_shape {T} `{GoType T} (service : IRavenDBService T)
    (collection : string) (p : loc) (o : QueryOptions.t)
    (params : gmap string value) (w : World) :
  OpenSession_err (GetStore service) (GetDatabase service) = None →
  options_heap w !! p = Some o →
  params_of w o = Some params →
  CollectionService.Query (CollectionService.Build service collection) (Some p) w
  = Query service collection (Some p) w
  ∧ ∃ take,
      1 ≤ take ≤ 1024
      ∧ options_heap (Query service collection (Some p) w).2 !! p
        = Some (QueryOptions.with_Take take o)
      ∧ wire (Query service collection (Some p) w).2
        = wire w ++
          [("from @all_docs where @metadata.'@collection' = '" +:+ collection +:+ "'"
            +:+ (if bool_decide (QueryOptions.WhereClause o = EmptyString)
                 then EmptyString
                 else " AND (" +:+ QueryOptions.WhereClause o +:+ ")")
            +:+ (if bool_decide (QueryOptions.OrderBy o = EmptyString)
                 then EmptyString
                 else " ORDER BY " +:+ QueryOptions.OrderBy o
                      +:+ (if QueryOptions.OrderDesc o then " DESC" else EmptyString))
            +:+ " LIMIT " +:+ fmt_d (QueryOptions.Skip o) +:+ ", " +:+ fmt_d take,
            params)].
Proof.
  intros Hopen Hp Hparams. split; [done|].
  exists (effective_take (QueryOptions.Take o)).
  split; [apply effective_take_bounds|].
  rewrite Query_from_session by done. unfold Query_model. rewrite Hp, Hparams.
  simpl. by rewrite lookup_insert_eq.
Qed.

Lemma Query_text_shape_witness :
  OpenSession_err (GetStore Demo.service) (GetDatabase Demo.service) = None
  ∧ options_heap
      (Demo.options_at
         (QueryOptions.Build 10 0 "age" true "age > $min" None false)) !! 1%positive
    = Some (QueryOptions.Build 10 0 "age" true "age > $min" None false)
  ∧ params_of
      (Demo.options_at (QueryOptions.Build 10 0 "age" true "age > $min" None false))
      (QueryOptions.Build 10 0 "age" true "age > $min" None false)
    = Some ∅
  ∧ ∃ take,
      1 ≤ take ≤ 1024
      ∧ wire (Query Demo.service "Users" (Some 1%positive)
                (Demo.options_at
                   (QueryOptions.Build 10 0 "age" true "age > $min" None false))).2
        = [("from @all_docs where @metadata.'@collection' = 'Users' AND (age > $min) ORDER BY age DESC LIMIT 10, "
            +:+ fmt_d take, ∅)].
Proof.
  split; [reflexivity|]. split; [reflexivity|]. split; [reflexivity|].
  destruct (Query_text_shape Demo.service "Users" 1%positive
              (QueryOptions.Build 10 0 "age" true "age > $min" None false) ∅
              (Demo.options_at
                 (QueryOptions.Build 10 0 "age" true "age > $min" None false))
              eq_refl eq_refl eq_refl)
    as (_ & take & Htake & _ & Hwire).
  exists take. split; [exact Htake|]. rewrite Hwire. reflexivity.
Defined.

(** C2, as stated, fails where it says that [Take] is normalized to at
    least 25: a call with [Take = 2] asks the engine for [LIMIT 0, 2] and
    leaves [Take = 2] in the options. *)
Lemma Query_Take_2_stays_2 :
  wire (Query Demo.service "Users" (Some 1%positive)
          (Demo.options_at (Demo.take_only 2))).2
  = [("from @all_docs where @metadata.'@collection' = 'Users' LIMIT 0, 2", ∅)]
  ∧ ¬ (∃ o',
         options_heap (Query Demo.service "Users" (Some 1%positive)
                         (Demo.options_at (Demo.take_only 2))).2 !! 1%positive
         = Some o'
         ∧ 25 ≤ QueryOptions.Take o').
Proof.
  split; [reflexivity|].
  intros (o' & Ho' & Hge).
  assert (Hrun : options_heap (Query Demo.service "Users" (Some 1%positive)
                                 (Demo.options_at (Demo.take_only 2))).2 !! 1%positive
                 = Some (Demo.take_only 2)) by reflexivity.
  rewrite Hrun in Ho'. injection Ho' as <-. simpl in Hge. lia.
Qed.

(** C3.  For every page [Query] returns (free function or method), the
    [Take] of the page is the normalized [Take] of the options, and
    [HasMore] is true if and only if that [Take] is greater than 0 and
    the number of returned results equals it exactly.  Nothing but the
    length of this one page enters: it is not a look-ahead. *)
Theorem HasMore_iff_full_page {T} `{GoType T} (service : IRavenDBService T)
    (collection : string) (options : option loc) (w w' : World)
    (res : GenericQueryResult.t T) :
  Query service collection options w = (Ok res, w')
  ∨ CollectionService.Query (CollectionService.Build service collection) options w
    = (Ok res, w') →
  ∃ o,
    options_heap (options_world w options) !! options_loc w options = Some o
    ∧ GenericQueryResult.Take res
      = (if bool_decide (QueryOptions.Take o ≤ 0) then 25
         else Z.min (QueryOptions.Take o) 1024)
    ∧ (GenericQueryResult.HasMore res = true
       ↔ GenericQueryResult.Take res > 0
         ∧ Z.of_nat (length (GenericQueryResult.Results res))
           = GenericQueryResult.Take res).
Proof.
  intros Hrun.
  assert (Hq : Query service collection options w = (Ok res, w'))
    by (by destruct Hrun).
  destruct (Query_Ok_inv _ _ _ _ _ _ Hq) as (o & params & rows & Ho & _ & _ & ->).
  exists o. split; [done|]. split; [done|].
  unfold page. simpl. rewrite length_fmap.
  rewrite andb_true_iff, !bool_decide_eq_true. done.
Qed.

Lemma HasMore_iff_full_page_witness :
  Query Demo.service "Users" (Some 1%positive) (Demo.options_at (Demo.take_only 2))
  = (Ok (GenericQueryResult.Build ["users/1"; "users/2"] 2 0 2 true),
     mkWorld Demo.users [] {[ 1%positive := Demo.take_only 2 ]} ∅
       [("from @all_docs where @metadata.'@collection' = 'Users' LIMIT 0, 2", ∅)])
  ∧ (true = true ↔ 2 > 0 ∧ Z.of_nat (length ["users/1"; "users/2"]) = 2).
Proof.
  assert (Hrun :
    Query Demo.service "Users" (Some 1%positive) (Demo.options_at (Demo.take_only 2))
    = (Ok (GenericQueryResult.Build ["users/1"; "users/2"] 2 0 2 true),
       mkWorld Demo.users [] {[ 1%positive := Demo.take_only 2 ]} ∅
         [("from @all_docs where @metadata.'@collection' = 'Users' LIMIT 0, 2", ∅)]))
    by (vm_compute; reflexivity).
  split; [exact Hrun|].
  destruct (HasMore_iff_full_page Demo.service "Users" (Some 1%positive)
              (Demo.options_at (Demo.take_only 2)) _ _ (or_introl Hrun))
    as (o & _ & _ & Hiff).
  exact Hiff.
Defined.





(** The scenario of the specification: the stored document
    [{id: "users/1", name: "John", age: 30}], updated with [{age: 31}], is
    afterwards [{id: "users/1", name: "John", age: 31}]; an update of an id
    that is not there is refused and changes nothing. *)
Example Update_scenario :
  server (DatabaseService.Update Demo.service "users/1" {[ "age" := VInt 31 ]}
            (mkWorld
               {[ "users/1" := {[ "id" := VStr "users/1"; "name" := VStr "John";
                                  "age" := VInt 30 ]} ]}
               [] ∅ ∅ [])).2 !! "users/1"
  = Some {[ "id" := VStr "users/1"; "name" := VStr "John"; "age" := VInt 31 ]}
  ∧ DatabaseService.Update Demo.service "users/7" {[ "age" := VInt 31 ]} Demo.world
    = (Err "document with ID users/7 not found", Demo.world).
Proof. vm_compute. split; reflexivity. Qed.

(** C6.  [CollectionService.Delete], after a load that went through,
    returns the not-found error when there is no document with that id,
    and deletes it otherwise.  [CollectionService.DeleteMultiple] skips
    every id without a document: unless the commit itself fails it returns
    no error, and afterwards none of the listed ids has a document while
    every other document is as before. *)
Theorem Delete_strict_DeleteMultiple_lenient {T} `{GoType T}
    (service : IRavenDBService T) (collection id : string) (ids : list string)
    (w : World) :
  OpenSession_err (GetStore service) (GetDatabase service) = None →
  Load_err (GetStore service) id = None →
  (∀ i, i ∈ ids → Load_err (GetStore service) i = None) →
  CollectionService.Delete (CollectionService.Build service collection) id w
  = match server w !! id with
    | None =>
        (Err ("document with ID " +:+ id +:+ " not found"), set_pending (λ _, []) w)
    | Some _ =>
        match SaveChanges_err (GetStore service) with
        | Some e => (Err e, set_pending (λ _, []) w)
        | None =>
            (Ok tt, set_pending (λ _, []) (set_server (λ _, delete id (server w)) w))
        end
    end
  ∧ CollectionService.DeleteMultiple (CollectionService.Build service collection) ids w
    = match SaveChanges_err (GetStore service) with
      | Some e => (Err e, set_pending (λ _, []) w)
      | None =>
          (Ok tt, set_pending (λ _, []) (set_server (λ _, without ids (server w)) w))
      end
  ∧ ∀ i, without ids (server w) !! i
         = if decide (i ∈ ids) then None else server w !! i.
Proof.
  intros Hopen Hload Hloads. split; [|split].
  - by rewrite Delete_run.
  - by rewrite DeleteMultiple_run.
  - intros i. apply without_lookup.
Qed.

Lemma Delete_strict_DeleteMultiple_lenient_witness :
  OpenSession_err (GetStore Demo.service) (GetDatabase Demo.service) = None
  ∧ Load_err (GetStore Demo.service) "users/9" = None
  ∧ (∀ i, i ∈ ["users/9"; "users/1"] → Load_err (GetStore Demo.service) i = None)
  ∧ CollectionService.Delete Demo.users_collection "users/9" Demo.world
    = (Err "document with ID users/9 not found", Demo.world)
  ∧ (CollectionService.DeleteMultiple Demo.users_collection ["users/9"; "users/1"]
       Demo.world).1 = Ok tt
  ∧ server (CollectionService.DeleteMultiple Demo.users_collection
              ["users/9"; "users/1"] Demo.world).2
    = {[ "users/2" := {[ "name" := VStr "Jane"; "age" := VInt 41 ]} ]}.
Proof.
  split; [reflexivity|]. split; [reflexivity|]. split; [reflexivity|].
  destruct (Delete_strict_DeleteMultiple_lenient Demo.service "Users" "users/9"
              ["users/9"; "users/1"] Demo.world eq_refl eq_refl (λ _ _, eq_refl))
    as (Hdel & Hmulti & _).
  unfold Demo.users_collection. rewrite Hdel, Hmulti.
  repeat split; vm_compute; reflexivity.
Defined.

(** C7.  [QueryByField] (free function and method) calls [Query] on
    options whose [WhereClause] is exactly [<field> = $value] and whose
    [Parameters] bind [value] to the supplied value; [QueryByRange] calls
    it with [<field> >= $minValue AND <field> <= $maxValue] and with
    [minValue] and [maxValue] bound to the supplied bounds. *)
Theorem field_and_range_clauses {T} `{GoType T} (service : IRavenDBService T)
    (collection fieldName : string) (fieldValue minValue maxValue : value)
    (options : option loc) (o : QueryOptions.t) (params : gmap string value)
    (w : World) :
  options_heap (options_world w options) !! options_loc w options = Some o →
  params_of (options_world w options) o = Some params →
  (∃ w1 o1 m g,
     w1 = prepared (options_world w options) (options_loc w options) o
            (QueryOptions.with_WhereClause (fieldName +:+ " = $value"))
            (<["value":=fieldValue]> params)
     ∧ QueryByField service collection fieldName fieldValue options w
       = Query service collection (Some (options_loc w options)) w1
     ∧ CollectionService.QueryByField (CollectionService.Build service collection)
         fieldName fieldValue options w
       = Query service collection (Some (options_loc w options)) w1
     ∧ options_heap w1 !! options_loc w options = Some o1
     ∧ QueryOptions.WhereClause o1 = fieldName +:+ " = $value"
     ∧ QueryOptions.Parameters o1 = Some m
     ∧ maps_heap w1 !! m = Some g
     ∧ g !! "value" = Some fieldValue)
  ∧ (∃ w1 o1 m g,
       w1 = prepared (options_world w options) (options_loc w options) o
              (QueryOptions.with_WhereClause
                 (fieldName +:+ " >= $minValue AND " +:+ fieldName +:+ " <= $maxValue"))
              (<["maxValue":=maxValue]> (<["minValue":=minValue]> params))
       ∧ QueryByRange service collection fieldName minValue maxValue options w
         = Query service collection (Some (options_loc w options)) w1
       ∧ CollectionService.QueryByRange (CollectionService.Build service collection)
           fieldName minValue maxValue options w
         = Query service collection (Some (options_loc w options)) w1
       ∧ options_heap w1 !! options_loc w options = Some o1
       ∧ QueryOptions.WhereClause o1
         = fieldName +:+ " >= $minValue AND " +:+ fieldName +:+ " <= $maxValue"
       ∧ QueryOptions.Parameters o1 = Some m
       ∧ maps_heap w1 !! m = Some g
       ∧ g !! "minValue" = Some minValue
       ∧ g !! "maxValue" = Some maxValue).
Proof.
  intros Hp Hparams. split.
  - eexists _, _, _, _. split; [reflexivity|].
    rewrite CollectionService_QueryByField.
    cbn [CollectionService.database CollectionService.collection].
    rewrite QueryByField_any, (QueryByField_prepared _ _ _ _ _ _ _ _ Hp Hparams).
    split; [done|]. split; [done|].
    split; [apply prepared_options|]. split; [done|]. split; [done|].
    split; [apply prepared_map|]. apply lookup_insert_eq.
  - eexists _, _, _, _. split; [reflexivity|].
    rewrite CollectionService_QueryByRange.
    cbn [CollectionService.database CollectionService.collection].
    rewrite QueryByRange_any, (QueryByRange_prepared _ _ _ _ _ _ _ _ _ Hp Hparams).
    split; [done|]. split; [done|].
    split; [apply prepared_options|]. split; [done|]. split; [done|].
    split; [apply prepared_map|]. split.
    + rewrite lookup_insert_ne by done. apply lookup_insert_eq.
    + apply lookup_insert_eq.
Qed.

Lemma field_and_range_clauses_witness :
  options_heap (options_world Demo.world None) !! options_loc Demo.world None
  = Some QueryOptions.zero
  ∧ params_of (options_world Demo.world None) QueryOptions.zero = Some ∅
  ∧ wire (QueryByField Demo.service "Users" "age" (VInt 30) None Demo.world).2
    = [("from @all_docs where @metadata.'@collection' = 'Users' AND (age = $value) LIMIT 0, 25",
        {[ "value" := VInt 30 ]})]
  ∧ wire (QueryByRange Demo.service "Users" "age" (VInt 18) (VInt 65) None Demo.world).2
    = [("from @all_docs where @metadata.'@collection' = 'Users' AND (age >= $minValue AND age <= $maxValue) LIMIT 0, 25",
        {[ "minValue" := VInt 18; "maxValue" := VInt 65 ]})].
Proof.
  split; [reflexivity|]. split; [reflexivity|].
  destruct (field_and_range_clauses Demo.service "Users" "age" (VInt 30) (VInt 18)
              (VInt 65) None QueryOptions.zero ∅ Demo.world eq_refl eq_refl)
    as [(w1 & o1 & m1 & g1 & -> & Hfield & _) (w2 & o2 & m2 & g2 & -> & Hrange & _)].
  rewrite Hfield, Hrange. split; vm_compute; reflexivity.
Defined.

(** C8, as amended.  For every non-empty list of search fields [Search]
    (free function and method) sets [WhereClause] to the parenthesised OR
    of the predicates [search(fi, $searchTermi)] in field order, and binds
    every [searchTermi] to the same search term.  For an empty list it
    does not assign [WhereClause]: the caller's clause stays as it was, so
    the query has no WHERE restriction beyond the collection filter for
    nil options and for options that came without a clause, and keeps the
    caller's restriction otherwise. *)
Theorem Search_clause_and_bindings {T} `{GoType T} (service : IRavenDBService T)
    (collection searchTerm : string) (searchFields : list string)
    (options : option loc) (o : QueryOptions.t) (params : gmap string value)
    (w : World) :
  options_heap (options_world w options) !! options_loc w options = Some o →
  params_of (options_world w options) o = Some params →
  ∃ w1 o1 m g,
    w1 = prepared (options_world w options) (options_loc w options) o
           (match searchFields with
            | [] => λ o, o
            | _ :: _ => QueryOptions.with_WhereClause (search_clause searchFields)
            end)
           (search_binds searchTerm 0 (length searchFields) params)
    ∧ Search service collection searchTerm searchFields options w
      = Query service collection (Some (options_loc w options)) w1
    ∧ CollectionService.Search (CollectionService.Build service collection)
        searchTerm searchFields options w
      = Query service collection (Some (options_loc w options)) w1
    ∧ options_heap w1 !! options_loc w options = Some o1
    ∧ QueryOptions.Parameters o1 = Some m
    ∧ maps_heap w1 !! m = Some g
    ∧ (searchFields ≠ [] →
       QueryOptions.WhereClause o1
       = "(" +:+ String.concat " OR "
                   (imap (λ i field,
                            "search(" +:+ field +:+ ", $" +:+
                            ("searchTerm" +:+ fmt_d (Z.of_nat i)) +:+ ")")
                      searchFields) +:+ ")")
    ∧ (∀ i, (i < length searchFields)%nat →
            g !! ("searchTerm" +:+ fmt_d (Z.of_nat i)) = Some (VStr searchTerm))
    ∧ (searchFields = [] →
       QueryOptions.WhereClause o1 = QueryOptions.WhereClause o ∧ g = params)
    ∧ (searchFields = [] → options = None →
       QueryOptions.WhereClause o1 = EmptyString)
    ∧ (searchFields = [] →
       QueryOptions.WhereClause o = EmptyString →
       OpenSession_err (GetStore service) (GetDatabase service) = None →
       wire (Search service collection searchTerm searchFields options w).2
       = wire w ++
         [(rql_text collection EmptyString (QueryOptions.OrderBy o)
             (QueryOptions.OrderDesc o) (QueryOptions.Skip o)
             (if bool_decide (QueryOptions.Take o ≤ 0) then 25
              else Z.min (QueryOptions.Take o) 1024),
           params)]).
Proof.
  intros Hp Hparams.
  eexists _, _, _, _. split; [reflexivity|].
  rewrite CollectionService_Search.
  cbn [CollectionService.database CollectionService.collection].
  rewrite Search_any, (Search_prepared _ _ _ _ _ _ _ _ Hp Hparams).
  split; [reflexivity|]. split; [reflexivity|].
  split; [apply prepared_options|]. split; [done|].
  split; [apply prepared_map|]. split; [|split; [|split; [|split]]].
  - intros Hne. by destruct searchFields.
  - intros i Hi. apply (search_binds_lookup searchTerm 0 _ params i). lia.
  - by intros ->.
  - intros -> ->. rewrite options_world_nil in Hp. by injection Hp as <-.
  - intros -> Hclause Hopen.
    rewrite (Query_wire _ _ _ _ params _ Hopen (prepared_options _ _ _ _ _))
      by (unfold params_of; apply prepared_map).
    unfold rql_of. simpl. rewrite Hclause. by destruct options.
Qed.

Lemma Search_clause_and_bindings_witness :
  options_heap (options_world Demo.world None) !! options_loc Demo.world None
  = Some QueryOptions.zero
  ∧ params_of (options_world Demo.world None) QueryOptions.zero = Some ∅
  ∧ wire (Search Demo.service "Users" "john" ["name"; "email"] None Demo.world).2
    = [("from @all_docs where @metadata.'@collection' = 'Users' AND ((search(name, $searchTerm0) OR search(email, $searchTerm1))) LIMIT 0, 25",
        {[ "searchTerm0" := VStr "john"; "searchTerm1" := VStr "john" ]})].
Proof.
  split; [reflexivity|]. split; [reflexivity|].
  destruct (Search_clause_and_bindings Demo.service "Users" "john" ["name"; "email"]
              None QueryOptions.zero ∅ Demo.world eq_refl eq_refl)
    as (w1 & o1 & m & g & -> & Hsearch & _).
  rewrite Hsearch. vm_compute. reflexivity.
Defined.

(** C8, as stated, fails for an empty field list when the caller's options
    carry a [WhereClause]: the clause is still there after the call and the
    query is restricted by it. *)
Lemma Search_no_fields_keeps_caller_clause :
  wire (Search Demo.service "Users" "john" [] (Some 1%positive)
          (Demo.options_at
             (QueryOptions.with_WhereClause "age > 30" QueryOptions.zero))).2
  = [("from @all_docs where @metadata.'@collection' = 'Users' AND (age > 30) LIMIT 0, 25",
      ∅)]
  ∧ ¬ (∃ o',
         options_heap
           (Search Demo.service "Users" "john" [] (Some 1%positive)
              (Demo.options_at
                 (QueryOptions.with_WhereClause "age > 30" QueryOptions.zero))).2
         !! 1%positive = Some o'
         ∧ QueryOptions.WhereClause o' = EmptyString).
Proof.
  split; [vm_compute; reflexivity|].
  intros (o' & Ho' & Hclause).
  vm_compute in Ho'. injection Ho' as <-. discriminate Hclause.
Qed.

(** ** What the caller finds after a helper *)

Lemma prepared_mutated {T} `{GoType T} (service : IRavenDBService T) collection
    w p o clause params' :
  mutated_in_place w
    (Query service collection (Some p)
       (prepared w p o (QueryOptions.with_WhereClause clause) params')).2
    p o clause params'.
Proof.
  destruct (Query_frame service collection p _ _
              (prepared_options w p o (QueryOptions.with_WhereClause clause) params'))
    as (take & Hheap & Hmaps).
  eexists _, (parameters_loc w o). split; [exact Hheap|].
  split; [done|]. split; [done|]. split; [|split; [|split]].
  - intros m0 Hm0. unfold parameters_loc. by rewrite Hm0.
  - intros Hnil. unfold parameters_loc. rewrite Hnil.
    apply not_elem_of_dom, is_fresh.
  - rewrite Hmaps. apply prepared_map.
  - done.
Qed.

(** C9.  [QueryByField], [QueryByRange] and [Search] with a non-empty
    field list (free functions and methods) change the caller's options
    in place: after the call the object the caller passed has the new
    [WhereClause], its [Parameters] map (the caller's own map, or a fresh
    one when it was nil) holds the bound entries, and [Skip], [OrderBy],
    [OrderDesc] and [IncludeTotal] are as they were. *)
Theorem helpers_mutate_options_in_place {T} `{GoType T} (service : IRavenDBService T)
    (collection fieldName searchTerm : string) (fieldValue minValue maxValue : value)
    (searchFields : list string) (p : loc) (o : QueryOptions.t)
    (params : gmap string value) (w : World) :
  options_heap w !! p = Some o →
  params_of w o = Some params →
  mutated_in_place w
    (QueryByField service collection fieldName fieldValue (Some p) w).2 p o
    (fieldName +:+ " = $value") (<["value":=fieldValue]> params)
  ∧ mutated_in_place w
      (CollectionService.QueryByField (CollectionService.Build service collection)
         fieldName fieldValue (Some p) w).2 p o
      (fieldName +:+ " = $value") (<["value":=fieldValue]> params)
  ∧ mutated_in_place w
      (QueryByRange service collection fieldName minValue maxValue (Some p) w).2 p o
      (fieldName +:+ " >= $minValue AND " +:+ fieldName +:+ " <= $maxValue")
      (<["maxValue":=maxValue]> (<["minValue":=minValue]> params))
  ∧ mutated_in_place w
      (CollectionService.QueryByRange (CollectionService.Build service collection)
         fieldName minValue maxValue (Some p) w).2 p o
      (fieldName +:+ " >= $minValue AND " +:+ fieldName +:+ " <= $maxValue")
      (<["maxValue":=maxValue]> (<["minValue":=minValue]> params))
  ∧ (searchFields ≠ [] →
     mutated_in_place w
       (Search service collection searchTerm searchFields (Some p) w).2 p o
       (search_clause searchFields)
       (search_binds searchTerm 0 (length searchFields) params)
     ∧ mutated_in_place w
         (CollectionService.Search (CollectionService.Build service collection)
            searchTerm searchFields (Some p) w).2 p o
         (search_clause searchFields)
         (search_binds searchTerm 0 (length searchFields) params)).
Proof.
  intros Hp Hparams.
  rewrite CollectionService_QueryByField, CollectionService_QueryByRange,
    CollectionService_Search.
  cbn [CollectionService.database CollectionService.collection].
  rewrite (QueryByField_prepared _ _ _ _ _ _ _ _ Hp Hparams).
  rewrite (QueryByRange_prepared _ _ _ _ _ _ _ _ _ Hp Hparams).
  rewrite (Search_prepared _ _ _ _ _ _ _ _ Hp Hparams).
  repeat split; try apply prepared_mutated.
  all: destruct searchFields; [done | apply prepared_mutated].
Qed.

Lemma helpers_mutate_options_in_place_witness :
  options_heap (Demo.options_at (QueryOptions.Build 5 10 "age" true EmptyString None true))
    !! 1%positive
  = Some (QueryOptions.Build 5 10 "age" true EmptyString None true)
  ∧ params_of (Demo.options_at (QueryOptions.Build 5 10 "age" true EmptyString None true))
      (QueryOptions.Build 5 10 "age" true EmptyString None true)
    = Some ∅
  ∧ mutated_in_place
      (Demo.options_at (QueryOptions.Build 5 10 "age" true EmptyString None true))
      (QueryByField Demo.service "Users" "age" (VInt 30) (Some 1%positive)
         (Demo.options_at (QueryOptions.Build 5 10 "age" true EmptyString None true))).2
      1%positive (QueryOptions.Build 5 10 "age" true EmptyString None true)
      "age = $value" {[ "value" := VInt 30 ]}.
Proof.
  split; [reflexivity|]. split; [reflexivity|].
  exact (proj1 (helpers_mutate_options_in_place Demo.service "Users" "age" "john"
                  (VInt 30) (VInt 18) (VInt 65) ["name"] 1%positive
                  (QueryOptions.Build 5 10 "age" true EmptyString None true) ∅
                  (Demo.options_at
                     (QueryOptions.Build 5 10 "age" true EmptyString None true))
                  eq_refl eq_refl)).
Defined.

(** C10.  [Query] (free function and method), once its session is open,
    changes the caller's options in place when it normalizes the page
    size: after a call with [Take <= 0] the caller finds [Take = 25],
    after a call with [Take > 1024] the caller finds [Take = 1024], and
    no other field is changed.  A returned page carries this normalized
    [Take] and the [Skip] of the options. *)
Theorem Query_normalizes_caller_options {T} `{GoType T} (service : IRavenDBService T)
    (collection : string) (p : loc) (o : QueryOptions.t)
    (params : gmap string value) (w : World) :
  OpenSession_err (GetStore service) (GetDatabase service) = None →
  options_heap w !! p = Some o →
  params_of w o = Some params →
  CollectionService.Query (CollectionService.Build service collection) (Some p) w
  = Query service collection (Some p) w
  ∧ ∃ o',
      options_heap (Query service collection (Some p) w).2 !! p = Some o'
      ∧ same_but_Take o o'
      ∧ (QueryOptions.Take o ≤ 0 → QueryOptions.Take o' = 25)
      ∧ (QueryOptions.Take o > 1024 → QueryOptions.Take o' = 1024)
      ∧ (0 < QueryOptions.Take o ≤ 1024 → QueryOptions.Take o' = QueryOptions.Take o)
      ∧ ∀ res, (Query service collection (Some p) w).1 = Ok res →
               GenericQueryResult.Take res = QueryOptions.Take o'
               ∧ GenericQueryResult.Skip res = QueryOptions.Skip o.
Proof.
  intros Hopen Hp Hparams. split; [done|].
  rewrite Query_from_session by done. unfold Query_model. rewrite Hp, Hparams.
  exists (normalized o). simpl. split; [apply lookup_insert_eq|].
  split; [done|]. unfold effective_take.
  split; [intros; by rewrite bool_decide_eq_true_2|].
  split; [intros; rewrite bool_decide_eq_false_2 by lia; lia|].
  split; [intros; rewrite bool_decide_eq_false_2 by lia; lia|].
  destruct (GetResults _ _ _ _) as [e|rows]; [done|].
  by intros res [= <-].
Qed.

Lemma Query_normalizes_caller_options_witness :
  OpenSession_err (GetStore Demo.service) (GetDatabase Demo.service) = None
  ∧ options_heap (Demo.options_at (Demo.take_only (-3))) !! 1%positive
    = Some (Demo.take_only (-3))
  ∧ params_of (Demo.options_at (Demo.take_only (-3))) (Demo.take_only (-3)) = Some ∅
  ∧ ∃ o',
      options_heap (Query Demo.service "Users" (Some 1%positive)
                      (Demo.options_at (Demo.take_only (-3)))).2 !! 1%positive
      = Some o'
      ∧ QueryOptions.Take o' = 25.
Proof.
  split; [reflexivity|]. split; [reflexivity|]. split; [reflexivity|].
  destruct (Query_normalizes_caller_options Demo.service "Users" 1%positive
              (Demo.take_only (-3)) ∅ (Demo.options_at (Demo.take_only (-3)))
              eq_refl eq_refl eq_refl)
    as (_ & o' & Ho' & _ & Hlow & _).
  exists o'. split; [exact Ho'|]. apply Hlow. simpl. lia.
Defined.

(** A call whose session cannot be opened returns before the options are
    looked at: they stay as the caller passed them. *)
Example Query_offline_leaves_options :
  Query Demo.service_offline "Users" (Some 1%positive) (Demo.options_at (Demo.take_only 0))
  = (Err "failed to open session: connection refused",
     Demo.options_at (Demo.take_only 0)).
Proof. reflexivity. Qed.

(** * Further properties *)

(** ** The remaining CRUD operations, step by step *)

Lemma closed_closed (w : World) : closed (closed w) = closed w.
Proof. reflexivity. Qed.

Lemma closed_id (w : World) : pending w = [] → closed w = w.
Proof. destruct w as [s pe h mh wi]. simpl. by intros ->. Qed.

Section more_crud.
Context {T : Type}.
Variable identities : Identities.
Variable ds : IRavenDBService T.
Hypothesis Hopen : OpenSession_err (GetStore ds) (GetDatabase ds) = None.

Lemma Store_run id doc w :
  id ≠ EmptyString →
  DatabaseService.Store identities ds id doc w
  = match StoreWithID_err (GetStore ds) id with
    | Some e => (Err ("failed to store document: " +:+ e), closed w)
    | None => commit (GetStore ds) w (<[id:=doc]> (server w))
    end.
Proof.
  intros Hid. unfold DatabaseService.Store, OpenSession, defer_Close.
  rewrite Hopen, bool_decide_eq_true_2 by done.
  unfold session_StoreWithID, commit, session_SaveChanges.
  cbv [check bind ret modify]. simpl.
  destruct (StoreWithID_err (GetStore ds) id) as [e|]; [done|].
  cbv [bind modify]. simpl. by destruct (SaveChanges_err (GetStore ds)).
Qed.








End more_crud.

(** ** Storing many documents *)

(** The committed documents after the puts of [entries], first entry
    first. *)
Lemma puts_as_union (entries : list (string * document)) :
  ∀ srv : gmap string document,
  NoDup entries.*1 →
  foldl (λ srv e, <[e.1:=e.2]> srv) srv entries = list_to_map entries ∪ srv.
Proof.
  induction entries as [|[k v] l IH]; intros srv Hnd; simpl.
  - by rewrite (left_id_L ∅ (∪)).
  - apply NoDup_cons in Hnd as [Hk Hnd]. rewrite IH by done.
    rewrite <- insert_union_l.
    by rewrite insert_union_r by (by apply not_elem_of_list_to_map_1).
Qed.

Lemma puts_of_map (documents : gmap string document) entries
    (srv : gmap string document) :
  entries ≡ₚ map_to_list documents →
  foldl (λ srv e, <[e.1:=e.2]> srv) srv entries = documents ∪ srv.
Proof.
  intros Hperm.
  assert (Hnd : NoDup entries.*1)
    by (rewrite Hperm; apply NoDup_fst_map_to_list).
  rewrite puts_as_union by done. f_equal.
  rewrite <- (list_to_map_to_list documents).
  by apply list_to_map_proper.
Qed.

Section store_multiple.
Context {T : Type}.
Variable identities : Identities.
Variable store : DocumentStore T.

(** Whatever happens in the loop, only the unit of work changes. *)
Lemma StoreMultiple_loop_frame entries : ∀ w,
  ∃ r cs, DatabaseService.StoreMultiple_loop identities store entries w
          = (r, set_pending (λ _, cs) w).
Proof.
  induction entries as [|[id doc] rest IH]; intros w; simpl.
  - exists (Ok tt), (pending w). unfold ret. by destruct w.
  - case_bool_decide.
    + unfold session_StoreWithID.
      destruct (StoreWithID_err store id) as [e|].
      * eexists (Err _), (pending w). cbv [check bind throw]. by destruct w.
      * cbv [check bind ret modify].
        destruct (IH (set_pending (cons (Put id doc)) w)) as (r & cs & ->).
        by exists r, cs.
    + unfold session_Store.
      destruct (Store_err identities) as [e|].
      * eexists (Err _), (pending w). cbv [check bind throw]. by destruct w.
      * cbv [check bind ret modify].
        destruct (IH (set_pending
                        (cons (Put (GenerateID identities (server w) (pending w) doc) doc))
                        w)) as (r & cs & ->).
        by exists r, cs.
Qed.

(** With ids that are all there and no store that fails, the loop files
    one put per entry. *)
Lemma StoreMultiple_loop_run entries : ∀ w,
  (∀ e, e ∈ entries → e.1 ≠ EmptyString ∧ StoreWithID_err store e.1 = None) →
  ∃ cs, DatabaseService.StoreMultiple_loop identities store entries w
        = (Ok tt, set_pending (λ _, cs) w)
        ∧ foldr apply_change (server w) cs
          = foldl (λ srv e, <[e.1:=e.2]> srv)
              (foldr apply_change (server w) (pending w)) entries.
Proof.
  induction entries as [|[id doc] rest IH]; intros w Hok; simpl.
  - exists (pending w). split; [|done]. unfold ret. by destruct w.
  - destruct (Hok (id, doc)) as [Hid Hstore]; [apply elem_of_cons; by left|].
    simpl in Hid, Hstore.
    rewrite bool_decide_eq_true_2 by done. unfold session_StoreWithID.
    rewrite Hstore. cbv [check bind ret modify].
    destruct (IH (set_pending (cons (Put id doc)) w)) as (cs & -> & Hcs);
      [intros; apply Hok, elem_of_cons; by right|].
    by exists cs.
Qed.

(** One store that fails makes the loop fail, wherever it stands. *)
Lemma StoreMultiple_loop_fails entries id doc e : ∀ w,
  (id, doc) ∈ entries →
  id ≠ EmptyString →
  StoreWithID_err store id = Some e →
  ∃ e' cs, DatabaseService.StoreMultiple_loop identities store entries w
           = (Err e', set_pending (λ _, cs) w).
Proof.
  induction entries as [|[id' doc'] rest IH]; intros w Hin Hid Hfail.
  - by apply not_elem_of_nil in Hin.
  - apply elem_of_cons in Hin as [[= <- <-]|Hin]; simpl.
    + rewrite bool_decide_eq_true_2 by done. unfold session_StoreWithID.
      rewrite Hfail. eexists _, (pending w). cbv [check bind throw]. by destruct w.
    + destruct (StoreMultiple_loop_frame ((id', doc') :: rest) w) as (r & cs & Hrun).
      simpl in Hrun. rewrite Hrun.
      destruct r as [[]|e'|]; [| by exists e', cs |].
      * exfalso. revert Hrun. case_bool_decide.
        -- unfold session_StoreWithID.
           destruct (StoreWithID_err store id'); cbv [check bind ret modify throw];
             [done|].
           destruct (IH (set_pending (cons (Put id' doc')) w) Hin Hid Hfail)
             as (e' & cs' & ->). done.
        -- unfold session_Store.
           destruct (Store_err identities); cbv [check bind ret modify throw];
             [done|].
           destruct (IH (set_pending
                           (cons (Put (GenerateID identities (server w) (pending w) doc')
                                    doc')) w) Hin Hid Hfail)
             as (e' & cs' & ->). done.
      * exfalso. revert Hrun. case_bool_decide.
        -- unfold session_StoreWithID.
           destruct (StoreWithID_err store id'); cbv [check bind ret modify throw];
             [done|].
           destruct (IH (set_pending (cons (Put id' doc')) w) Hin Hid Hfail)
             as (e' & cs' & ->). done.
        -- unfold session_Store.
           destruct (Store_err identities); cbv [check bind ret modify throw];
             [done|].
           destruct (IH (set_pending
                           (cons (Put (GenerateID identities (server w) (pending w) doc')
                                    doc')) w) Hin Hid Hfail)
             as (e' & cs' & ->). done.
Qed.
End store_multiple.

Section store_multiple_run.
Context {T : Type}.
Variable identities : Identities.
Variable ds : IRavenDBService T.
Hypothesis Hopen : OpenSession_err (GetStore ds) (GetDatabase ds) = None.

Lemma StoreMultiple_in_order_run entries w :
  (∀ e, e ∈ entries → e.1 ≠ EmptyString ∧ StoreWithID_err (GetStore ds) e.1 = None) →
  DatabaseService.StoreMultiple_in_order identities ds entries w
  = commit (GetStore ds) w (foldl (λ srv e, <[e.1:=e.2]> srv) (server w) entries).
Proof.
  intros Hok. unfold DatabaseService.StoreMultiple_in_order, OpenSession, defer_Close.
  rewrite Hopen. cbv [check]. unfold bind at 1, ret at 1.
  unfold bind at 1, modify at 1.
  destruct (StoreMultiple_loop_run identities (GetStore ds) entries
              (set_pending (λ _, []) w) Hok) as (cs & Hrun & Hcs).
  rewrite (bind_Ok _ _ _ _ _ Hrun). simpl in Hcs.
  unfold commit, session_SaveChanges.
  destruct (SaveChanges_err (GetStore ds)) as [e|]; [done|].
  unfold modify, closed, set_server, set_pending. simpl. by rewrite Hcs.
Qed.

Lemma StoreMultiple_in_order_fails entries id doc e w :
  (id, doc) ∈ entries →
  id ≠ EmptyString →
  StoreWithID_err (GetStore ds) id = Some e →
  ∃ e', DatabaseService.StoreMultiple_in_order identities ds entries w
        = (Err e', closed w).
Proof.
  intros Hin Hid Hfail.
  unfold DatabaseService.StoreMultiple_in_order, OpenSession, defer_Close.
  rewrite Hopen. cbv [check]. unfold bind at 1, ret at 1.
  unfold bind at 1, modify at 1.
  destruct (StoreMultiple_loop_fails identities (GetStore ds) entries id doc e
              (set_pending (λ _, []) w) Hin Hid Hfail) as (e' & cs & Hrun).
  exists e'. unfold bind. by rewrite Hrun.
Qed.
End store_multiple_run.

(** ** The typed operations are the untyped ones on the written document *)

Section typed.
Context {T : Type} `{Codec T}.
Variable identities : Identities.

Lemma typed_Store (cs : CollectionService.t T) id (x : T) :
  CollectionService.Store identities cs id x
  = DatabaseService.Store identities (CollectionService.database cs) id (to_document x).
Proof. reflexivity. Qed.


Lemma typed_StoreMultiple_loop (store : DocumentStore T) (entries : list (string * T)) :
  CollectionService.StoreMultiple_loop identities store entries
  = DatabaseService.StoreMultiple_loop identities store
      (prod_map id to_document <$> entries).
Proof.
  induction entries as [|[k x] rest IH]; simpl; [done|]. by rewrite IH.
Qed.

Lemma typed_StoreMultiple_in_order (cs : CollectionService.t T) entries :
  CollectionService.StoreMultiple_in_order identities cs entries
  = DatabaseService.StoreMultiple_in_order identities (CollectionService.database cs)
      (prod_map id to_document <$> entries).
Proof.
  unfold CollectionService.StoreMultiple_in_order,
    DatabaseService.StoreMultiple_in_order.
  by rewrite typed_StoreMultiple_loop.
Qed.


Lemma typed_LoadByID_run (cs : CollectionService.t T) id w :
  OpenSession_err (GetStore (CollectionService.database cs))
    (GetDatabase (CollectionService.database cs)) = None →
  CollectionService.LoadByID cs id w
  = match Load_err (GetStore (CollectionService.database cs)) id with
    | Some e => (Err ("failed to load document: " +:+ e), closed w)
    | None => (Ok (of_document <$> server w !! id), closed w)
    end.
Proof.
  intros Hopen. unfold CollectionService.LoadByID, OpenSession, defer_Close, session_Load.
  rewrite Hopen. cbv [check bind ret modify gets]. simpl.
  destruct (Load_err _ id); [done|].
  cbn [session_view pending server set_pending].
  by destruct (server w !! id).
Qed.


End typed.

(** ** Operations in a session that cannot be opened, or that was opened *)

Lemma session_op_error {T A} (store : DocumentStore T) database (body : M A) w e :
  OpenSession_err store database = Some e →
  (OpenSession store database "failed to open session: " ;;; defer_Close body) w
  = (Err ("failed to open session: " +:+ e), w).
Proof. unfold OpenSession. by intros ->. Qed.

Lemma session_op_Ok_opens {T A} (store : DocumentStore T) database (body : M A) w a w' :
  (OpenSession store database "failed to open session: " ;;; defer_Close body) w
  = (Ok a, w') →
  OpenSession_err store database = None.
Proof.
  destruct (OpenSession_err store database) as [e|] eqn:Hopen; [|done].
  by rewrite (session_op_error _ _ _ _ e Hopen).
Qed.

(** ** Store, load, delete *)













Lemma DeleteMultiple_loop_load_fails {T} `{GoType T} (store : DocumentStore T)
    pre id post e : ∀ w,
  (∀ i, i ∈ pre → Load_err store i = None) →
  Load_err store id = Some e →
  ∃ cs, CollectionService.DeleteMultiple_loop store (pre ++ id :: post) w
        = (Err ("failed to load document " +:+ id +:+ " for deletion: " +:+ e),
           set_pending (λ _, cs) w).
Proof.
  induction pre as [|i pre IH]; intros w Hpre Hfail; simpl.
  - exists (pending w). unfold session_Load. rewrite Hfail.
    cbv [check bind throw]. rewrite !append_assoc. by destruct w.
  - unfold session_Load. rewrite (Hpre i) by (apply elem_of_cons; by left).
    cbv [check bind ret gets].
    destruct (session_view (pending w) (server w) i).
    + destruct (IH (set_pending (cons (Del i)) w)) as (cs & Hrun);
        [intros; apply Hpre, elem_of_cons; by right|done|].
      exists cs. unfold session_Delete, modify. by rewrite Hrun.
    + destruct (IH w) as (cs & Hrun);
        [intros; apply Hpre, elem_of_cons; by right|done|].
      by exists cs.
Qed.

(** X6.  [CollectionService.DeleteMultiple] is all or nothing towards a
    load that fails: the call returns that ID's load error and no
    document is deleted, not even those found before it in the list. *)
Theorem DeleteMultiple_load_failure_deletes_nothing {T} `{GoType T}
    (ds : IRavenDBService T) (collection id e : string) (pre post : list string)
    (w : World) :
  OpenSession_err (GetStore ds) (GetDatabase ds) = None →
  (∀ i, i ∈ pre → Load_err (GetStore ds) i = None) →
  Load_err (GetStore ds) id = Some e →
  CollectionService.DeleteMultiple (CollectionService.Build ds collection)
    (pre ++ id :: post) w
  = (Err ("failed to load document " +:+ id +:+ " for deletion: " +:+ e), closed w).
Proof.
  intros Hopen Hpre Hfail.
  unfold CollectionService.DeleteMultiple, OpenSession, defer_Close.
  cbn [CollectionService.database]. rewrite Hopen.
  cbv [check]. unfold bind at 1, ret at 1. unfold bind at 1, modify at 1.
  destruct (DeleteMultiple_loop_load_fails (GetStore ds) pre id post e
              (set_pending (λ _, []) w) Hpre Hfail) as (cs & Hrun).
  unfold bind. by rewrite Hrun.
Qed.

Lemma DeleteMultiple_load_failure_deletes_nothing_witness :
  OpenSession_err (GetStore Demo.service_picky) (GetDatabase Demo.service_picky) = None
  ∧ (∀ i, i ∈ ["users/1"] → Load_err (GetStore Demo.service_picky) i = None)
  ∧ Load_err (GetStore Demo.service_picky) "users/2" = Some "timeout"
  ∧ CollectionService.DeleteMultiple
      (CollectionService.Build Demo.service_picky "Users")
      (["users/1"] ++ "users/2" :: []) Demo.world
    = (Err "failed to load document users/2 for deletion: timeout", Demo.world).
Proof.
  split; [reflexivity|]. split.
  { intros i Hi. apply list_elem_of_singleton in Hi as ->. reflexivity. }
  split; [reflexivity|].
  apply (DeleteMultiple_load_failure_deletes_nothing Demo.service_picky "Users"
           "users/2" "timeout" ["users/1"] [] Demo.world eq_refl).
  - intros i Hi. apply list_elem_of_singleton in Hi as ->. reflexivity.
  - reflexivity.
Defined.




(** X8.  [StoreMultiple] does not depend on the order in which the map is
    visited: when every ID is non-empty and no store fails, any order of
    visit commits the same documents, the given ones over those already
    there.  The typed form commits the written documents in the same
    way. *)
Theorem StoreMultiple_any_order {T} `{Codec T} (identities : Identities)
    (ds : IRavenDBService T) (collection : string)
    (documents : gmap string document) (typed : gmap string T)
    (entries : list (string * document)) (w : World) :
  OpenSession_err (GetStore ds) (GetDatabase ds) = None →
  (∀ id, id ∈ dom documents ∨ id ∈ dom typed →
         id ≠ EmptyString ∧ StoreWithID_err (GetStore ds) id = None) →
  entries ≡ₚ map_to_list documents →
  DatabaseService.StoreMultiple_in_order identities ds entries w
  = match SaveChanges_err (GetStore ds) with
    | Some e => (Err e, set_pending (λ _, []) w)
    | None => (Ok tt, set_pending (λ _, [])
                        (set_server (λ _, documents ∪ server w) w))
    end
  ∧ DatabaseService.StoreMultiple identities ds documents w
    = DatabaseService.StoreMultiple_in_order identities ds entries w
  ∧ CollectionService.StoreMultiple identities (CollectionService.Build ds collection)
      typed w
    = match SaveChanges_err (GetStore ds) with
      | Some e => (Err e, set_pending (λ _, []) w)
      | None => (Ok tt, set_pending (λ _, [])
                          (set_server (λ _, (to_document <$> typed) ∪ server w) w))
      end.
Proof.
  intros Hopen Hok Hperm.
  assert (Hrun : ∀ (docs : gmap string document) es,
            dom docs ⊆ dom documents ∪ dom typed →
            es ≡ₚ map_to_list docs →
            DatabaseService.StoreMultiple_in_order identities ds es w
            = commit (GetStore ds) w (docs ∪ server w)).
  { intros docs es Hdom Hes. rewrite StoreMultiple_in_order_run; [|done|].
    - by rewrite (puts_of_map docs).
    - intros [k v] Hin. apply Hok. simpl.
      rewrite Hes in Hin. apply elem_of_map_to_list in Hin.
      apply elem_of_union, Hdom, elem_of_dom. by exists v. }
  split; [|split].
  - apply Hrun; [apply union_subseteq_l|done].
  - unfold DatabaseService.StoreMultiple.
    rewrite (Hrun documents (map_to_list documents));
      [|apply union_subseteq_l|done].
    by rewrite (Hrun documents entries); [|apply union_subseteq_l|].
  - unfold CollectionService.StoreMultiple.
    rewrite typed_StoreMultiple_in_order. cbn [CollectionService.database].
    apply (Hrun (to_document <$> typed)).
    + rewrite dom_fmap_L. apply union_subseteq_r.
    + by rewrite map_to_list_fmap.
Qed.

Lemma StoreMultiple_any_order_witness :
  OpenSession_err (GetStore Demo.service) (GetDatabase Demo.service) = None
  ∧ (∀ id, id ∈ dom ({[ "users/3" := {[ "name" := VStr "Jim" ]};
                        "users/1" := {[ "name" := VStr "Joe" ]} ]}
                     : gmap string document)
           ∨ id ∈ dom (∅ : gmap string string) →
           id ≠ EmptyString ∧ StoreWithID_err (GetStore Demo.service) id = None)
  ∧ [("users/1", {[ "name" := VStr "Joe" ]}); ("users/3", {[ "name" := VStr "Jim" ]})]
    ≡ₚ map_to_list ({[ "users/3" := {[ "name" := VStr "Jim" ]};
                       "users/1" := {[ "name" := VStr "Joe" ]} ]}
                    : gmap string document)
  ∧ server (DatabaseService.StoreMultiple_in_order Demo.identities Demo.service
              [("users/1", {[ "name" := VStr "Joe" ]});
               ("users/3", {[ "name" := VStr "Jim" ]})] Demo.world).2
    = {[ "users/1" := {[ "name" := VStr "Joe" ]};
         "users/2" := {[ "name" := VStr "Jane"; "age" := VInt 41 ]};
         "users/3" := {[ "name" := VStr "Jim" ]} ]}.
Proof.
  assert (Hids : ∀ id,
            id ∈ dom ({[ "users/3" := {[ "name" := VStr "Jim" ]};
                         "users/1" := {[ "name" := VStr "Joe" ]} ]}
                      : gmap string document)
            ∨ id ∈ dom (∅ : gmap string string) →
            id ≠ EmptyString ∧ StoreWithID_err (GetStore Demo.service) id = None).
  { intros id [Hid|Hid]; [|by rewrite dom_empty_L in Hid].
    split; [|reflexivity]. intros ->. revert Hid. vm_compute. done. }
  assert (Hperm :
    [("users/1", {[ "name" := VStr "Joe" ]}); ("users/3", {[ "name" := VStr "Jim" ]})]
    ≡ₚ map_to_list ({[ "users/3" := {[ "name" := VStr "Jim" ]};
                       "users/1" := {[ "name" := VStr "Joe" ]} ]}
                    : gmap string document)).
  { vm_compute. first [reflexivity | apply perm_swap]. }
  split; [reflexivity|]. split; [exact Hids|]. split; [exact Hperm|].
  destruct (StoreMultiple_any_order Demo.identities Demo.service "Users" _ ∅ _
              Demo.world eq_refl Hids Hperm) as (Hrun & _).
  rewrite Hrun. vm_compute. reflexivity.
Defined.

(** X9.  [StoreMultiple] is all or nothing: as soon as the store of one
    of the documents fails, the call fails, in whatever order the map is
    visited, and none of the documents is committed. *)
Theorem StoreMultiple_all_or_nothing {T} (identities : Identities)
    (ds : IRavenDBService T) (documents : gmap string document)
    (entries : list (string * document)) (id e : string) (w : World) :
  OpenSession_err (GetStore ds) (GetDatabase ds) = None →
  id ∈ dom documents →
  id ≠ EmptyString →
  StoreWithID_err (GetStore ds) id = Some e →
  entries ≡ₚ map_to_list documents →
  ∃ e', DatabaseService.StoreMultiple_in_order identities ds entries w
        = (Err e', set_pending (λ _, []) w).
Proof.
  intros Hopen Hin Hid Hfail Hperm.
  apply elem_of_dom in Hin as [doc Hdoc].
  apply (StoreMultiple_in_order_fails identities ds Hopen entries id doc e); try done.
  rewrite Hperm. by apply elem_of_map_to_list.
Qed.

Lemma StoreMultiple_all_or_nothing_witness :
  OpenSession_err (GetStore Demo.service_picky) (GetDatabase Demo.service_picky) = None
  ∧ "users/2" ∈ dom ({[ "users/5" := {[ "name" := VStr "Jim" ]};
                        "users/2" := {[ "name" := VStr "Joe" ]} ]}
                     : gmap string document)
  ∧ StoreWithID_err (GetStore Demo.service_picky) "users/2" = Some "conflict"
  ∧ ∃ e', DatabaseService.StoreMultiple Demo.identities Demo.service_picky
            {[ "users/5" := {[ "name" := VStr "Jim" ]};
               "users/2" := {[ "name" := VStr "Joe" ]} ]} Demo.world
          = (Err e', Demo.world).
Proof.
  assert (Hin : "users/2" ∈ dom ({[ "users/5" := {[ "name" := VStr "Jim" ]};
                                    "users/2" := {[ "name" := VStr "Joe" ]} ]}
                                 : gmap string document)).
  { apply elem_of_dom. eexists. vm_compute. reflexivity. }
  split; [reflexivity|]. split; [exact Hin|]. split; [reflexivity|].
  exact (StoreMultiple_all_or_nothing Demo.identities Demo.service_picky _ _
           "users/2" "conflict" Demo.world eq_refl Hin ltac:(done) eq_refl
           (reflexivity _)).
Defined.

(** ** Typed documents *)



(** X11.  A typed value stored under an ID is the value the next
    [LoadByID] of that ID returns, provided reading back what the client
    wrote gives the value again. *)
Theorem typed_Store_then_LoadByID {T} `{Codec T} (identities : Identities)
    (cs : CollectionService.t T) (id : string) (x : T) (w w1 : World) :
  (∀ y : T, of_document (to_document y) = y) →
  id ≠ EmptyString →
  CollectionService.Store identities cs id x w = (Ok tt, w1) →
  Load_err (GetStore (CollectionService.database cs)) id = None →
  CollectionService.LoadByID cs id w1 = (Ok (Some x), w1).
Proof.
  intros Hcodec Hid Hrun Hload.
  pose proof (session_op_Ok_opens _ _ _ _ _ _ Hrun) as Hopen.
  rewrite typed_Store, Store_run in Hrun by done.
  destruct (StoreWithID_err _ id); [done|]. unfold commit in Hrun.
  destruct (SaveChanges_err _); [done|]. injection Hrun as <-.
  rewrite typed_LoadByID_run by done. rewrite Hload.
  cbn [server closed set_server set_pending]. rewrite lookup_insert_eq.
  cbn [fmap option_fmap option_map]. by rewrite Hcodec.
Qed.

Lemma typed_Store_then_LoadByID_witness :
  (∀ y : string, of_document (to_document y) = y)
  ∧ CollectionService.Store Demo.identities Demo.users_collection "users/3" "three"
      Demo.world
    = (Ok tt, mkWorld (<["users/3":={[ "id" := VStr "three" ]}]> Demo.users) [] ∅ ∅ [])
  ∧ Load_err (GetStore (CollectionService.database Demo.users_collection)) "users/3"
    = None
  ∧ CollectionService.LoadByID Demo.users_collection "users/3"
      (mkWorld (<["users/3":={[ "id" := VStr "three" ]}]> Demo.users) [] ∅ ∅ [])
    = (Ok (Some "three"),
       mkWorld (<["users/3":={[ "id" := VStr "three" ]}]> Demo.users) [] ∅ ∅ []).
Proof.
  assert (Hcodec : ∀ y : string, of_document (to_document y) = y).
  { intros y. simpl. by rewrite lookup_singleton_eq. }
  assert (Hrun :
    CollectionService.Store Demo.identities Demo.users_collection "users/3" "three"
      Demo.world
    = (Ok tt, mkWorld (<["users/3":={[ "id" := VStr "three" ]}]> Demo.users) [] ∅ ∅ []))
    by (vm_compute; reflexivity).
  split; [exact Hcodec|]. split; [exact Hrun|]. split; [reflexivity|].
  exact (typed_Store_then_LoadByID Demo.identities Demo.users_collection "users/3"
           "three" _ _ Hcodec ltac:(done) Hrun eq_refl).
Defined.



(** ** What [DatabaseService.Update] keeps *)






(** ** More on the queries *)

Lemma effective_take_idemp (take : Z) :
  effective_take (effective_take take) = effective_take take.
Proof.
  pose proof (effective_take_bounds take) as Hb.
  unfold effective_take at 1. rewrite bool_decide_eq_false_2 by lia. lia.
Qed.

Lemma normalized_idemp (o : QueryOptions.t) : normalized (normalized o) = normalized o.
Proof. unfold normalized. simpl. by rewrite effective_take_idemp. Qed.

Section query_frames.
Context {T : Type} `{GoType T}.
Variable service : IRavenDBService T.
Variable collection : string.

(** [Query] writes to no object but the options it was handed. *)
Lemma Query_frame_other p q w :
  q ≠ p →
  options_heap (Query service collection (Some p) w).2 !! q = options_heap w !! q.
Proof.
  intros Hq.
  destruct (OpenSession_err (GetStore service) (GetDatabase service)) as [e|] eqn:Hopen.
  - by rewrite (Query_session_error _ _ _ _ e Hopen).
  - rewrite Query_from_session by done. unfold Query_model.
    destruct (options_heap w !! p) as [o|]; [|done].
    destruct (params_of w o); simpl; by rewrite lookup_insert_ne.
Qed.

Lemma Query_keeps_documents options w :
  server (Query service collection options w).2 = server w
  ∧ maps_heap (Query service collection options w).2 = maps_heap w.
Proof.
  destruct (OpenSession_err (GetStore service) (GetDatabase service)) as [e|] eqn:Hopen.
  - by rewrite (Query_session_error _ _ _ _ e Hopen).
  - rewrite Query_run by done. unfold Query_model.
    destruct (options_heap _ !! _) as [o|]; [|by destruct options].
    destruct (params_of _ o); by destruct options.
Qed.
End query_frames.

(** X15.  [Query] with nil options runs on options of its own: the text
    sent is the collection filter with [LIMIT 0, 25] and no parameters, a
    returned page says [Skip = 0] and [Take = 25], and no options object
    the caller holds is touched. *)
Theorem Query_with_nil_options {T} `{GoType T} (service : IRavenDBService T)
    (collection : string) (w : World) :
  OpenSession_err (GetStore service) (GetDatabase service) = None →
  CollectionService.Query (CollectionService.Build service collection) None w
  = Query service collection None w
  ∧ wire (Query service collection None w).2
    = wire w ++ [(rql_text collection EmptyString EmptyString false 0 25, ∅)]
  ∧ (∀ p o, options_heap w !! p = Some o →
            options_heap (Query service collection None w).2 !! p = Some o)
  ∧ (∀ res, (Query service collection None w).1 = Ok res →
            GenericQueryResult.Skip res = 0 ∧ GenericQueryResult.Take res = 25).
Proof.
  intros Hopen. split; [done|].
  rewrite Query_run by done. unfold Query_model. rewrite options_world_nil.
  cbn [params_of QueryOptions.Parameters QueryOptions.zero].
  split; [done|]. split.
  - intros p o Hp. simpl.
    assert (p ≠ fresh (dom (options_heap w))).
    { intros ->. apply (is_fresh (dom (options_heap w))), elem_of_dom. by exists o. }
    by rewrite !lookup_insert_ne.
  - simpl. destruct (GetResults _ _ _ _) as [e|rows]; [done|].
    by intros res [= <-].
Qed.

Lemma Query_with_nil_options_witness :
  OpenSession_err (GetStore Demo.service) (GetDatabase Demo.service) = None
  ∧ wire (Query Demo.service "Users" None Demo.world).2
    = [("from @all_docs where @metadata.'@collection' = 'Users' LIMIT 0, 25", ∅)].
Proof.
  split; [reflexivity|].
  destruct (Query_with_nil_options Demo.service "Users" Demo.world eq_refl)
    as (_ & Hwire & _).
  rewrite Hwire. reflexivity.
Defined.

(** X16.  No query writes to the database: [Query], [QueryAll] and
    [Count] leave the committed documents and every [Parameters] map as
    they were, whatever the options, the engine's answer or the error. *)
Theorem queries_read_only {T} `{GoType T} (service : IRavenDBService T)
    (collection : string) (options : option loc) (w : World) :
  server (Query service collection options w).2 = server w
  ∧ maps_heap (Query service collection options w).2 = maps_heap w
  ∧ server (QueryAll service collection w).2 = server w
  ∧ maps_heap (QueryAll service collection w).2 = maps_heap w
  ∧ server (CollectionService.Count (CollectionService.Build service collection) w).2
    = server w
  ∧ maps_heap (CollectionService.Count (CollectionService.Build service collection) w).2
    = maps_heap w.
Proof.
  destruct (Query_keeps_documents service collection options w) as [Hs Hm].
  split; [done|]. split; [done|].
  assert (Hall : server (QueryAll service collection w).2 = server w
                 ∧ maps_heap (QueryAll service collection w).2 = maps_heap w).
  { rewrite QueryAll_as_Query.
    destruct (Query_keeps_documents service collection
                (Some (fresh (dom (options_heap w))))
                (set_options_heap <[fresh (dom (options_heap w)):=all_options]> w))
      as [-> ->]. done. }
  destruct Hall as [Hs' Hm']. split; [done|]. split; [done|].
  unfold CollectionService.Count. rewrite CollectionService_QueryAll.
  cbn [CollectionService.database CollectionService.collection].
  by destruct (QueryAll service collection w) as [[res|e|] w1].
Qed.



(** X18.  When the engine refuses the query, [Query] returns
    [failed to execute query: <error>]; by then the caller's options have
    been normalized and the query has gone out, and both stay so. *)
Theorem Query_failure_after_normalization {T} `{GoType T} (service : IRavenDBService T)
    (collection : string) (p : loc) (o : QueryOptions.t) (params : gmap string value)
    (e : string) (w : World) :
  OpenSession_err (GetStore service) (GetDatabase service) = None →
  options_heap w !! p = Some o →
  params_of w o = Some params →
  GetResults (GetStore service) (rql_of collection (normalized o)) params (server w)
  = inl e →
  (Query service collection (Some p) w).1 = Err ("failed to execute query: " +:+ e)
  ∧ options_heap (Query service collection (Some p) w).2 !! p = Some (normalized o)
  ∧ wire (Query service collection (Some p) w).2
    = wire w ++ [(rql_of collection (normalized o), params)].
Proof.
  intros Hopen Hp Hparams Hfail.
  rewrite Query_from_session by done. unfold Query_model.
  rewrite Hp, Hparams, Hfail. simpl. by rewrite lookup_insert_eq.
Qed.

Lemma Query_failure_after_normalization_witness :
  OpenSession_err (GetStore Demo.service_picky) (GetDatabase Demo.service_picky) = None
  ∧ options_heap (Demo.options_at (Demo.take_only 0)) !! 1%positive
    = Some (Demo.take_only 0)
  ∧ params_of (Demo.options_at (Demo.take_only 0)) (Demo.take_only 0) = Some ∅
  ∧ (Query Demo.service_picky "Users" (Some 1%positive)
       (Demo.options_at (Demo.take_only 0))).1
    = Err "failed to execute query: engine down"
  ∧ options_heap (Query Demo.service_picky "Users" (Some 1%positive)
                    (Demo.options_at (Demo.take_only 0))).2 !! 1%positive
    = Some (Demo.take_only 25).
Proof.
  split; [reflexivity|]. split; [reflexivity|]. split; [reflexivity|].
  destruct (Query_failure_after_normalization Demo.service_picky "Users" 1%positive
              (Demo.take_only 0) ∅ "engine down" (Demo.options_at (Demo.take_only 0))
              eq_refl eq_refl eq_refl eq_refl) as (Herr & Hheap & _).
  split; [exact Herr|exact Hheap].
Defined.

(** X19.  The second of two [Query] calls on the same options object has
    the same outcome as the first, sends the same text and parameters
    again, and leaves the options as the first call left them:
    normalizing is idempotent. *)
Theorem Query_twice {T} `{GoType T} (service : IRavenDBService T)
    (collection : string) (p : loc) (o : QueryOptions.t) (params : gmap string value)
    (w : World) :
  OpenSession_err (GetStore service) (GetDatabase service) = None →
  options_heap w !! p = Some o →
  params_of w o = Some params →
  (Query service collection (Some p) (Query service collection (Some p) w).2).1
  = (Query service collection (Some p) w).1
  ∧ options_heap (Query service collection (Some p)
                    (Query service collection (Some p) w).2).2
    = options_heap (Query service collection (Some p) w).2
  ∧ wire (Query service collection (Some p)
            (Query service collection (Some p) w).2).2
    = wire w ++ [(rql_of collection (normalized o), params);
                 (rql_of collection (normalized o), params)].
Proof.
  intros Hopen Hp Hparams.
  assert (Hfirst :
    Query service collection (Some p) w
    = (match GetResults (GetStore service) (rql_of collection (normalized o)) params
               (server w) with
       | inl e => Err ("failed to execute query: " +:+ e)
       | inr rows => Ok (page (normalized o) rows)
       end,
       set_wire (λ l, l ++ [(rql_of collection (normalized o), params)])
         (set_options_heap <[p:=normalized o]> (set_pending (λ _, []) w)))).
  { rewrite Query_from_session by done. unfold Query_model. by rewrite Hp, Hparams. }
  rewrite Hfirst. cbn [fst snd].
  rewrite Query_from_session by done. unfold Query_model.
  cbn [options_heap set_wire set_options_heap set_pending].
  rewrite lookup_insert_eq.
  replace (params_of _ (normalized o)) with (Some params) by (by rewrite <- Hparams).
  rewrite normalized_idemp. cbn [fst snd server wire options_heap set_wire
                                  set_options_heap set_pending].
  rewrite insert_insert_eq. by rewrite <- app_assoc.
Qed.

Lemma Query_twice_witness :
  OpenSession_err (GetStore Demo.service) (GetDatabase Demo.service) = None
  ∧ options_heap (Demo.options_at (Demo.take_only 5000)) !! 1%positive
    = Some (Demo.take_only 5000)
  ∧ params_of (Demo.options_at (Demo.take_only 5000)) (Demo.take_only 5000) = Some ∅
  ∧ options_heap
      (Query Demo.service "Users" (Some 1%positive)
         (Query Demo.service "Users" (Some 1%positive)
            (Demo.options_at (Demo.take_only 5000))).2).2
    = options_heap
        (Query Demo.service "Users" (Some 1%positive)
           (Demo.options_at (Demo.take_only 5000))).2.
Proof.
  split; [reflexivity|]. split; [reflexivity|]. split; [reflexivity|].
  exact (proj1 (proj2 (Query_twice Demo.service "Users" 1%positive
                         (Demo.take_only 5000) ∅
                         (Demo.options_at (Demo.take_only 5000))
                         eq_refl eq_refl eq_refl))).
Defined.

(** ** Calls that fail to open their session *)

(** X20.  When the session cannot be opened, every CRUD operation and
    [Query] return [failed to open session: <error>] and leave the world
    as it was: nothing is loaded, stored, deleted or sent. *)
Theorem session_failure_changes_nothing {T} `{GoType T} `{Codec T}
    (identities : Identities) (ds : IRavenDBService T) (collection id e : string)
    (ids : list string) (doc updates : gmap string value)
    (documents : gmap string document) (results : list document) (x : T)
    (typed : gmap string T) (options : option loc) (w : World) :
  OpenSession_err (GetStore ds) (GetDatabase ds) = Some e →
  DatabaseService.Store identities ds id doc w
  = (Err ("failed to open session: " +:+ e), w)
  ∧ DatabaseService.StoreMultiple identities ds documents w
    = (Err ("failed to open session: " +:+ e), w)
  ∧ DatabaseService.LoadByID ds id w = (Err ("failed to open session: " +:+ e), w)
  ∧ DatabaseService.LoadMultipleByIDs ds ids results w
    = (Err ("failed to open session: " +:+ e), w)
  ∧ DatabaseService.Update ds id updates w = (Err ("failed to open session: " +:+ e), w)
  ∧ DatabaseService.Delete ds id w = (Err ("failed to open session: " +:+ e), w)
  ∧ DatabaseService.DeleteMultiple ds ids w
    = (Err ("failed to open session: " +:+ e), w)
  ∧ DatabaseService.Exists ds id w = (Err ("failed to open session: " +:+ e), w)
  ∧ DatabaseService.CountDocuments ds collection w
    = (Err ("failed to open session: " +:+ e), w)
  ∧ CollectionService.Store identities (CollectionService.Build ds collection) id x w
    = (Err ("failed to open session: " +:+ e), w)
  ∧ CollectionService.StoreMultiple identities (CollectionService.Build ds collection)
      typed w
    = (Err ("failed to open session: " +:+ e), w)
  ∧ CollectionService.LoadByID (CollectionService.Build ds collection) id w
    = (Err ("failed to open session: " +:+ e), w)
  ∧ CollectionService.LoadMultipleByIDs (CollectionService.Build ds collection) ids w
    = (Err ("failed to open session: " +:+ e), w)
  ∧ CollectionService.Update (CollectionService.Build ds collection) id x w
    = (Err ("failed to open session: " +:+ e), w)
  ∧ CollectionService.Delete (CollectionService.Build ds collection) id w
    = (Err ("failed to open session: " +:+ e), w)
  ∧ CollectionService.DeleteMultiple (CollectionService.Build ds collection) ids w
    = (Err ("failed to open session: " +:+ e), w)
  ∧ CollectionService.Exists (CollectionService.Build ds collection) id w
    = (Err ("failed to open session: " +:+ e), w)
  ∧ Query ds collection options w = (Err ("failed to open session: " +:+ e), w).
Proof.
  intros Hopen. repeat split; by apply session_op_error.
Qed.

Lemma session_failure_changes_nothing_witness :
  OpenSession_err (GetStore Demo.service_offline) (GetDatabase Demo.service_offline)
  = Some "connection refused"
  ∧ DatabaseService.Store Demo.identities Demo.service_offline "users/3"
      {[ "name" := VStr "Jim" ]} Demo.world
    = (Err "failed to open session: connection refused", Demo.world).
Proof.
  split; [reflexivity|].
  exact (proj1 (session_failure_changes_nothing Demo.identities Demo.service_offline
                  "Users" "users/3" "connection refused" [] {[ "name" := VStr "Jim" ]}
                  ∅ ∅ [] "x" ∅ None Demo.world eq_refl)).
Defined.

(** X21.  The query helpers write to the caller's options before the
    session is opened: when it cannot be opened, [QueryByField],
    [QueryByRange] and [Search] return the session error and the options
    carry the new [WhereClause] and bindings all the same, and [QueryAll]
    returns the error with its options object allocated. *)
Theorem helpers_write_before_the_session {T} `{GoType T} (service : IRavenDBService T)
    (collection fieldName searchTerm e : string) (fieldValue minValue maxValue : value)
    (searchFields : list string) (p : loc) (o : QueryOptions.t)
    (params : gmap string value) (w : World) :
  OpenSession_err (GetStore service) (GetDatabase service) = Some e →
  options_heap w !! p = Some o →
  params_of w o = Some params →
  QueryByField service collection fieldName fieldValue (Some p) w
  = (Err ("failed to open session: " +:+ e),
     prepared w p o (QueryOptions.with_WhereClause (fieldName +:+ " = $value"))
       (<["value":=fieldValue]> params))
  ∧ QueryByRange service collection fieldName minValue maxValue (Some p) w
    = (Err ("failed to open session: " +:+ e),
       prepared w p o
         (QueryOptions.with_WhereClause
            (fieldName +:+ " >= $minValue AND " +:+ fieldName +:+ " <= $maxValue"))
         (<["maxValue":=maxValue]> (<["minValue":=minValue]> params)))
  ∧ Search service collection searchTerm searchFields (Some p) w
    = (Err ("failed to open session: " +:+ e),
       prepared w p o
         (match searchFields with
          | [] => λ o, o
          | _ :: _ => QueryOptions.with_WhereClause (search_clause searchFields)
          end)
         (search_binds searchTerm 0 (length searchFields) params))
  ∧ QueryAll service collection w
    = (Err ("failed to open session: " +:+ e),
       set_options_heap <[fresh (dom (options_heap w)):=all_options]> w).
Proof.
  intros Hopen Hp Hparams.
  rewrite (QueryByField_prepared _ _ _ _ _ _ _ _ Hp Hparams).
  rewrite (QueryByRange_prepared _ _ _ _ _ _ _ _ _ Hp Hparams).
  rewrite (Search_prepared _ _ _ _ _ _ _ _ Hp Hparams).
  rewrite QueryAll_as_Query.
  by rewrite !(Query_session_error _ _ _ _ e Hopen).
Qed.

Lemma helpers_write_before_the_session_witness :
  OpenSession_err (GetStore Demo.service_offline) (GetDatabase Demo.service_offline)
  = Some "connection refused"
  ∧ options_heap (Demo.options_at QueryOptions.zero) !! 1%positive
    = Some QueryOptions.zero
  ∧ params_of (Demo.options_at QueryOptions.zero) QueryOptions.zero = Some ∅
  ∧ QueryByField Demo.service_offline "Users" "age" (VInt 30) (Some 1%positive)
      (Demo.options_at QueryOptions.zero)
    = (Err "failed to open session: connection refused",
       mkWorld Demo.users []
         {[ 1%positive :=
              QueryOptions.Build 0 0 EmptyString false "age = $value"
                (Some 1%positive) false ]}
         {[ 1%positive := {[ "value" := VInt 30 ]} ]} []).
Proof.
  split; [reflexivity|]. split; [reflexivity|]. split; [reflexivity|].
  destruct (helpers_write_before_the_session Demo.service_offline "Users" "age" "john"
              "connection refused" (VInt 30) (VInt 18) (VInt 65) [] 1%positive
              QueryOptions.zero ∅ (Demo.options_at QueryOptions.zero)
              eq_refl eq_refl eq_refl) as (Hfield & _).
  rewrite Hfield. vm_compute. reflexivity.
Defined.

(** ** The parameters of a search *)

Lemma search_param_inj i j : search_param i = search_param j → i = j.
Proof.
  unfold search_param, fmt_d. intros Heq.
  apply String.app_inj in Heq. apply pretty_Z_inj in Heq. lia.
Qed.

Lemma search_binds_other term n : ∀ i (g : gmap string value) k,
  (∀ j, (i ≤ j < i + n)%nat → k ≠ search_param j) →
  search_binds term i n g !! k = g !! k.
Proof.
  induction n as [|n IH]; intros i g k Hk; simpl; [done|].
  rewrite IH by (intros j Hj; apply Hk; lia).
  apply lookup_insert_ne. intros Heq. by apply (Hk i); [lia|].
Qed.

(** X22.  [Search] binds one parameter per field, under names that are
    pairwise different, each to the search term; every other entry of the
    caller's [Parameters] map is left as it was. *)
Theorem Search_binds_one_parameter_per_field {T} `{GoType T}
    (service : IRavenDBService T) (collection searchTerm : string)
    (searchFields : list string) (p : loc) (o : QueryOptions.t)
    (params : gmap string value) (w : World) :
  options_heap w !! p = Some o →
  params_of w o = Some params →
  ∃ o' g',
    options_heap (Search service collection searchTerm searchFields (Some p) w).2 !! p
    = Some o'
    ∧ QueryOptions.Parameters o' = Some (parameters_loc w o)
    ∧ maps_heap (Search service collection searchTerm searchFields (Some p) w).2
        !! parameters_loc w o
      = Some g'
    ∧ (∀ i, (i < length searchFields)%nat →
            g' !! ("searchTerm" +:+ fmt_d (Z.of_nat i)) = Some (VStr searchTerm))
    ∧ (∀ i j, "searchTerm" +:+ fmt_d (Z.of_nat i) = "searchTerm" +:+ fmt_d (Z.of_nat j) →
              i = j)
    ∧ (∀ k, (∀ i, (i < length searchFields)%nat →
                  k ≠ "searchTerm" +:+ fmt_d (Z.of_nat i)) →
            g' !! k = params !! k).
Proof.
  intros Hp Hparams.
  rewrite (Search_prepared _ _ _ _ _ _ _ _ Hp Hparams).
  set (upd := match searchFields with
              | [] => λ o : QueryOptions.t, o
              | _ :: _ => QueryOptions.with_WhereClause (search_clause searchFields)
              end).
  set (g' := search_binds searchTerm 0 (length searchFields) params).
  destruct (Query_frame service collection p _ _ (prepared_options w p o upd g'))
    as (take & Hheap & Hmaps).
  eexists _, g'. split; [exact Hheap|]. split; [done|].
  split; [rewrite Hmaps; apply prepared_map|]. split; [|split].
  - intros i Hi. apply (search_binds_lookup searchTerm 0 _ params i). lia.
  - intros i j. apply search_param_inj.
  - intros k Hk. apply search_binds_other. intros j Hj. apply Hk. lia.
Qed.

Lemma Search_binds_one_parameter_per_field_witness :
  options_heap
    (mkWorld Demo.users []
       {[ 1%positive := QueryOptions.with_Parameters (Some 7%positive) QueryOptions.zero ]}
       {[ 7%positive := {[ "min" := VInt 18 ]} ]} []) !! 1%positive
  = Some (QueryOptions.with_Parameters (Some 7%positive) QueryOptions.zero)
  ∧ params_of
      (mkWorld Demo.users []
         {[ 1%positive :=
              QueryOptions.with_Parameters (Some 7%positive) QueryOptions.zero ]}
         {[ 7%positive := {[ "min" := VInt 18 ]} ]} [])
      (QueryOptions.with_Parameters (Some 7%positive) QueryOptions.zero)
    = Some {[ "min" := VInt 18 ]}
  ∧ ∃ g',
      maps_heap
        (Search Demo.service "Users" "john" ["name"; "email"] (Some 1%positive)
           (mkWorld Demo.users []
              {[ 1%positive :=
                   QueryOptions.with_Parameters (Some 7%positive) QueryOptions.zero ]}
              {[ 7%positive := {[ "min" := VInt 18 ]} ]} [])).2 !! 7%positive
      = Some g'
      ∧ g' !! "searchTerm1" = Some (VStr "john")
      ∧ g' !! "min" = Some (VInt 18).
Proof.
  assert (Hp :
    options_heap
      (mkWorld Demo.users []
         {[ 1%positive :=
              QueryOptions.with_Parameters (Some 7%positive) QueryOptions.zero ]}
         {[ 7%positive := {[ "min" := VInt 18 ]} ]} []) !! 1%positive
    = Some (QueryOptions.with_Parameters (Some 7%positive) QueryOptions.zero))
    by reflexivity.
  assert (Hparams :
    params_of
      (mkWorld Demo.users []
         {[ 1%positive :=
              QueryOptions.with_Parameters (Some 7%positive) QueryOptions.zero ]}
         {[ 7%positive := {[ "min" := VInt 18 ]} ]} [])
      (QueryOptions.with_Parameters (Some 7%positive) QueryOptions.zero)
    = Some {[ "min" := VInt 18 ]}) by reflexivity.
  split; [exact Hp|]. split; [exact Hparams|].
  destruct (Search_binds_one_parameter_per_field Demo.service "Users" "john"
              ["name"; "email"] 1%positive _ _ _ Hp Hparams)
    as (o' & g' & _ & _ & Hg' & Hterm & _ & Hother).
  exists g'. split; [exact Hg'|]. split.
  - apply (Hterm 1%nat). simpl. lia.
  - rewrite Hother; [reflexivity|]. intros i _ Heq. discriminate Heq.
Defined.

(** X23.  A page of [QueryAll] always says [Skip = 0] and [Take = 1024],
    its [HasMore] is true exactly when the engine returned 1024 rows, and
    no options object the caller holds is touched. *)
Theorem QueryAll_page {T} `{GoType T} (service : IRavenDBService T)
    (collection : string) (w w' : World) (res : GenericQueryResult.t T) :
  QueryAll service collection w = (Ok res, w') →
  GenericQueryResult.Skip res = 0
  ∧ GenericQueryResult.Take res = 1024
  ∧ (GenericQueryResult.HasMore res = true
     ↔ length (GenericQueryResult.Results res) = 1024%nat)
  ∧ ∀ p o, options_heap w !! p = Some o → options_heap w' !! p = Some o.
Proof.
  intros Hrun.
  destruct (QueryAll_Ok_inv _ _ _ _ _ Hrun) as (rows & _ & -> & _).
  split; [done|]. split; [done|]. split.
  - unfold page. simpl. rewrite length_fmap. rewrite bool_decide_eq_true. lia.
  - intros p o Hp.
    assert (Hne : p ≠ fresh (dom (options_heap w))).
    { intros ->. apply (is_fresh (dom (options_heap w))), elem_of_dom. by exists o. }
    rewrite QueryAll_as_Query in Hrun.
    pose proof (Query_frame_other service collection _ _
                  (set_options_heap <[fresh (dom (options_heap w)):=all_options]> w)
                  Hne) as Hframe.
    rewrite Hrun in Hframe. simpl in Hframe.
    by rewrite Hframe, lookup_insert_ne.
Qed.

Lemma QueryAll_page_witness :
  QueryAll Demo.service "Users" Demo.world
  = (Ok (GenericQueryResult.Build ["users/1"; "users/2"] 2 0 1024 false),
     mkWorld Demo.users [] {[ 1%positive := all_options ]} ∅
       [("from @all_docs where @metadata.'@collection' = 'Users' LIMIT 0, 1024", ∅)])
  ∧ (false = true ↔ length ["users/1"; "users/2"] = 1024%nat).
Proof.
  assert (Hrun :
    QueryAll Demo.service "Users" Demo.world
    = (Ok (GenericQueryResult.Build ["users/1"; "users/2"] 2 0 1024 false),
       mkWorld Demo.users [] {[ 1%positive := all_options ]} ∅
         [("from @all_docs where @metadata.'@collection' = 'Users' LIMIT 0, 1024", ∅)]))
    by (vm_compute; reflexivity).
  split; [exact Hrun|].
  exact (proj1 (proj2 (proj2 (QueryAll_page _ _ _ _ _ Hrun)))).
Defined.

(** ** The status report *)

(** X24.  [GetDatabaseStatus] always returns a status map that names the
    database.  It returns an error exactly when the session cannot be
    opened: then the map says [disconnected] and carries the error's
    text; otherwise it says [connected].  The document and index counts,
    where present, are the constant 0, and no document is touched. *)
Theorem GetDatabaseStatus_report {T} (statistics : Statistics) (ds : IRavenDBService T)
    (w : World) :
  (DatabaseService.GetDatabaseStatus statistics ds w).1.1 !! "database_name"
  = Some (VStr (GetDatabase ds))
  ∧ (DatabaseService.GetDatabaseStatus statistics ds w).1.2
    = OpenSession_err (GetStore ds) (GetDatabase ds)
  ∧ (DatabaseService.GetDatabaseStatus statistics ds w).1.1 !! "status"
    = Some (VStr (match OpenSession_err (GetStore ds) (GetDatabase ds) with
                  | Some _ => "disconnected"
                  | None => "connected"
                  end))
  ∧ (DatabaseService.GetDatabaseStatus statistics ds w).1.1 !! "error"
    = VStr <$> OpenSession_err (GetStore ds) (GetDatabase ds)
  ∧ (∀ key n,
       key = "document_count" ∨ key = "index_count" →
       (DatabaseService.GetDatabaseStatus statistics ds w).1.1 !! key = Some n →
       n = VInt 0)
  ∧ server (DatabaseService.GetDatabaseStatus statistics ds w).2 = server w.
Proof.
  unfold DatabaseService.GetDatabaseStatus.
  destruct (OpenSession_err (GetStore ds) (GetDatabase ds)) as [e|];
    [|destruct (Send_is_nil statistics)]; simpl.
  all: repeat split; try done.
  all: intros key n [-> | ->] Hn; by simplify_map_eq.
Qed.
